(** * Artela EVM keeper: state transition, block-hash resolver, signature stage

    A shallow embedding of
      - [x/evm/keeper] state transition ([NewEVM], [GetHashFn],
        [ApplyTransaction], [ApplyMessage], [ApplyMessageWithConfig]) and
      - [app/ante/evm/sig_checker.go] ([EthSigVerificationDecorator.AnteHandle]).

    Conventions.
      - Go's [uint64] and [int64] are [Z] with the wrap-around written out
        (module [U64]); [big.Int] values that are never negative (blooms) are [N].
      - [cosmos.Dec] is the 18-digit fixed-point decimal of the SDK (module [Dec]).
      - A Go function returning [(T, error)] returns [Result T]; a Go panic is
        the third constructor [Panic].
      - [cosmos.Context] is passed by value in Go but points to shared stores;
        here every function that writes returns the context it leaves behind.
      - Collaborators that live outside these files (the virtual machine, the
        signature recovery, header decoding, the bank refund ...) are fields of
        interface records ([HashCollab], [ExecCollab], [ApplyCollab],
        [AnteCollab]); the theorems hold for every implementation of them.
      - Logging has no effect on any value and is left out. *)

From stdpp Require Import base option list gmap strings.
From Stdlib Require Import ZArith NArith Lia.

Local Open Scope Z_scope.

(* ===================================================================== *)
(** ** Machine integers *)
(* ===================================================================== *)

Module U64.

Definition modulus : Z := 2 ^ 64.
Definition max : Z := modulus - 1.          (* math.MaxUint64 *)
Definition maxInt64 : Z := 2 ^ 63 - 1.      (* math.MaxInt64 *)

Definition wrap (z : Z) : Z := z mod modulus.

Definition add (a b : Z) : Z := wrap (a + b).
Definition sub (a b : Z) : Z := wrap (a - b).

(** Go's conversion [int64(x)] of a [uint64]: the same 64 bits read as
    two's complement. *)
Definition to_int64 (x : Z) : Z :=
  if x <=? maxInt64 then x else x - modulus.

Definition in_range (z : Z) : Prop := 0 <= z < modulus.

End U64.

(* ===================================================================== *)
(** ** Errors and results *)
(* ===================================================================== *)

(** The sentinel errors the code names, an error handed back by a
    collaborator, and [errorsmod.Wrap]. *)
Inductive Error : Type :=
  | ErrCreateDisabled                (* types.ErrCreateDisabled *)
  | ErrCallDisabled                  (* types.ErrCallDisabled *)
  | ErrIntrinsicGas                  (* core.ErrIntrinsicGas *)
  | ErrGasOverflow                   (* types.ErrGasOverflow *)
  | ErrUnknownRequest                (* errortypes.ErrUnknownRequest *)
  | ErrInvalidHeight                 (* errortypes.ErrInvalidHeight *)
  | ErrCollaborator (what : string)  (* any error of a collaborator *)
  | Wrap (cause : Error) (context : string).

(** The innermost error of a chain of wraps, what [errors.Is] looks at. *)
Fixpoint root_cause (e : Error) : Error :=
  match e with
  | Wrap c _ => root_cause c
  | _ => e
  end.

Inductive Result (A : Type) : Type :=
  | Ok (a : A)
  | Err (e : Error)
  | Panic (what : string).
Arguments Ok {A} a.
Arguments Err {A} e.
Arguments Panic {A} what.

(* ===================================================================== *)
(** ** Bytes, hashes, addresses *)
(* ===================================================================== *)

Abbreviation byte := Byte.byte.
Abbreviation x00 := Byte.x00.

Definition Address := Z.            (* common.Address, 20 bytes read as a number *)

Module Hash.

Definition HashLength : nat := 32.

(** [common.Hash] is [[32]byte]. *)
Definition t := list byte.

(** [common.Hash{}] *)
Definition zero : t := replicate HashLength x00.

(** The last [HashLength] bytes of [b], all of it when it is shorter:
    [b = b[len(b)-HashLength:]] in [Hash.SetBytes]. *)
Definition crop (b : list byte) : list byte :=
  if (HashLength <? length b)%nat then drop (length b - HashLength) b else b.

(** [common.BytesToHash]: crop from the left, then right-align in 32 bytes. *)
Definition BytesToHash (b : list byte) : t :=
  replicate (HashLength - length (crop b)) x00 ++ crop b.

Definition is_zero_byte (c : byte) : bool := Byte.eqb c x00.

End Hash.

(* ===================================================================== *)
(** ** The SDK's fixed-point decimal *)
(* ===================================================================== *)

(** [cosmos.Dec] ([LegacyDec]): an integer counting units of [10^-18].
    Only the operations the keeper calls are here, written after the SDK:
    [NewDec], [Mul] (which rounds half to even and panics on overflow),
    [MaxDec], [TruncateInt] and [Int.Uint64] (which panics outside
    [uint64]). *)
Module Dec.

Definition Precision : Z := 18.
Definition precisionReuse : Z := 10 ^ Precision.
Definition fivePrecision : Z := precisionReuse / 2.

(** The raw integer of a decimal. *)
Definition t := Z.

Definition NewDec (i : Z) : t := i * precisionReuse.

(** [chopPrecisionAndRound] on a value that is not negative. *)
Definition chopRoundNonneg (d : Z) : Z :=
  let quo := Z.quot d precisionReuse in
  let rem := Z.rem d precisionReuse in
  if rem =? 0 then quo
  else match rem ?= fivePrecision with
       | Lt => quo
       | Gt => quo + 1
       | Eq => if Z.even quo then quo else quo + 1
       end.

(** [chopPrecisionAndRound]: the sign is taken off and put back. *)
Definition chopPrecisionAndRound (d : Z) : Z :=
  if d <? 0 then - chopRoundNonneg (- d) else chopRoundNonneg d.

(** [big.Int.BitLen] above [maxDecBitLen], the overflow test of the SDK. *)
Definition maxDecBitLen : Z := 315.
Definition overflows (i : Z) : bool := 2 ^ maxDecBitLen <=? Z.abs i.

(** [Dec.Mul]: multiplies, rounds, and panics when the result overflows. *)
Definition Mul (d d2 : t) : Result t :=
  let chopped := chopPrecisionAndRound (d * d2) in
  if overflows chopped then Panic "Int overflow" else Ok chopped.

Definition LT (d d2 : t) : bool := d <? d2.

Definition MaxDec (d1 d2 : t) : t := if LT d1 d2 then d2 else d1.

(** [chopPrecisionAndTruncate]: [big.Int.Quo], towards zero. *)
Definition TruncateInt (d : t) : Z := Z.quot d precisionReuse.

(** [Int.Uint64]: panics when the integer is no [uint64]. *)
Definition Uint64 (i : Z) : Result Z :=
  if (0 <=? i) && (i <=? U64.max) then Ok i else Panic "Uint64() out of bounds".

End Dec.

(* ===================================================================== *)
(** ** Data model *)
(* ===================================================================== *)

(** [tmproto.Header], the fields the identifier of a block is derived from. *)
Record HeaderProto := {
  hp_Version : Z;
  hp_Height : Z;
  hp_Time : Z;                         (* Unix seconds *)
  hp_LastBlockId : list byte;
  hp_DataHash : list byte;
  hp_ValidatorsHash : list byte;
  hp_AppHash : list byte;
  hp_ProposerAddress : list byte;
}.

(** [stakingtypes.HistoricalInfo] *)
Record HistoricalInfo := { hi_Header : HeaderProto }.

(** A gas meter of the SDK: a limit and what was consumed. *)
Record GasMeter := { gm_Limit : Z; gm_Consumed : Z }.

(** One account of the execution layer. *)
Record Account := {
  acc_Nonce : Z;
  acc_Balance : Z;
  acc_Code : list byte;
  acc_Storage : gmap Z Z;
}.

Definition emptyAccount : Account :=
  {| acc_Nonce := 0; acc_Balance := 0; acc_Code := []; acc_Storage := ∅ |}.

(** The persistent ledger: accounts by address. *)
Record Ledger := { accounts : gmap Z Account }.

(** Modelled from the spec: TransientBlockState, the per-block values the
    keeper's transient getters and setters ([GetBlockBloomTransient],
    [SetBlockBloomTransient], [SetLogSizeTransient], [SetTxIndexTransient],
    [AddTransientGasUsed]) read and write; those helpers are not part of
    the sources at hand. *)
Record TransientBlockState := {
  tr_Bloom : N;       (* accumulated bloom filter *)
  tr_LogSize : Z;     (* next log index *)
  tr_TxIndex : Z;     (* next transaction index *)
  tr_GasUsed : Z;     (* gas used so far *)
}.

(** The multi-store a context points to; [CacheContext] branches all of it. *)
Record MultiStore := {
  ledger : Ledger;
  transient : TransientBlockState;
}.

Record Event := { ev_Type : string; ev_Attributes : list (string * string) }.

(** [ethereum.Transaction]; its hash and the sender recovery are
    cryptographic and come from collaborators. *)
Record Transaction := {
  tx_Type : Z;
  tx_Hash : Hash.t;
  tx_Nonce : Z;
  tx_Gas : Z;
  tx_To : option Address;
  tx_Value : Z;
  tx_Data : list byte;
  tx_V : Z; tx_R : Z; tx_S : Z;
}.

(** The aspect runtime context the signature stage stores in the context. *)
Record AspectRuntimeContext := {
  arc_EthTxContext : option Transaction;
}.

Module cosmos.

(** [cosmos.Context]. *)
Record Context := {
  BlockHeight : Z;                       (* int64 *)
  HeaderHash : list byte;                (* empty until begin-block sets it *)
  BlockHeader : HeaderProto;
  BlockTime : Z;                         (* Unix seconds *)
  BlockGasMeter : option GasMeter;       (* may be nil *)
  TxGasMeter : GasMeter;                 (* ctx.GasMeter() *)
  Store : MultiStore;
  Events : list Event;                   (* ctx.EventManager().Events() *)
  IsCheckTx : bool;
  IsReCheckTx : bool;
  AspectContext : option AspectRuntimeContext;  (* ctx.Value(AspectContextKey) *)
}.

Definition WithStore (ctx : Context) (s : MultiStore) : Context :=
  {| BlockHeight := BlockHeight ctx; HeaderHash := HeaderHash ctx;
     BlockHeader := BlockHeader ctx; BlockTime := BlockTime ctx;
     BlockGasMeter := BlockGasMeter ctx; TxGasMeter := TxGasMeter ctx;
     Store := s; Events := Events ctx;
     IsCheckTx := IsCheckTx ctx; IsReCheckTx := IsReCheckTx ctx;
     AspectContext := AspectContext ctx |}.

Definition WithEvents (ctx : Context) (evs : list Event) : Context :=
  {| BlockHeight := BlockHeight ctx; HeaderHash := HeaderHash ctx;
     BlockHeader := BlockHeader ctx; BlockTime := BlockTime ctx;
     BlockGasMeter := BlockGasMeter ctx; TxGasMeter := TxGasMeter ctx;
     Store := Store ctx; Events := evs;
     IsCheckTx := IsCheckTx ctx; IsReCheckTx := IsReCheckTx ctx;
     AspectContext := AspectContext ctx |}.

Definition WithGasMeter (ctx : Context) (g : GasMeter) : Context :=
  {| BlockHeight := BlockHeight ctx; HeaderHash := HeaderHash ctx;
     BlockHeader := BlockHeader ctx; BlockTime := BlockTime ctx;
     BlockGasMeter := BlockGasMeter ctx; TxGasMeter := g;
     Store := Store ctx; Events := Events ctx;
     IsCheckTx := IsCheckTx ctx; IsReCheckTx := IsReCheckTx ctx;
     AspectContext := AspectContext ctx |}.

(** [ctx.WithValue(types.AspectContextKey, aspectCtx)] *)
Definition WithAspectContext (ctx : Context) (a : AspectRuntimeContext) : Context :=
  {| BlockHeight := BlockHeight ctx; HeaderHash := HeaderHash ctx;
     BlockHeader := BlockHeader ctx; BlockTime := BlockTime ctx;
     BlockGasMeter := BlockGasMeter ctx; TxGasMeter := TxGasMeter ctx;
     Store := Store ctx; Events := Events ctx;
     IsCheckTx := IsCheckTx ctx; IsReCheckTx := IsReCheckTx ctx;
     AspectContext := Some a |}.

(** [ctx.CacheContext()]: a branch of the store with an event manager of its
    own. The second component of Go's pair, [commit], is [CommitCache]. *)
Definition CacheContext (ctx : Context) : Context := WithEvents ctx [].

(** [commit()]: the branch's store is written over the parent's. Between
    [CacheContext] and [commit] the parent is only read, so that writing the
    dirty entries of the branch leaves the parent equal to the branch. *)
Definition CommitCache (parent tmp : Context) : Context := WithStore parent (Store tmp).

(** [ctx.EventManager().EmitEvents(evs)] *)
Definition EmitEvents (ctx : Context) (evs : list Event) : Context :=
  WithEvents ctx (Events ctx ++ evs).

Definition WithLedger (ctx : Context) (l : Ledger) : Context :=
  WithStore ctx {| ledger := l; transient := transient (Store ctx) |}.

Definition WithTransient (ctx : Context) (t : TransientBlockState) : Context :=
  WithStore ctx {| ledger := ledger (Store ctx); transient := t |}.

End cosmos.

(** [core.Message] *)
Record Message := {
  To : option Address;                 (* nil for a contract creation *)
  From : Address;
  Nonce : Z;                           (* uint64 *)
  Value : Z;
  GasLimit : Z;                        (* uint64 *)
  GasPrice : Z;
  Data : list byte;
  AccessList : list (Address * list Hash.t);
}.

(** The module parameters read here. *)
Record Params := {
  EnableCreate : bool;
  EnableCall : bool;
  EvmDenom : string;
}.

(** [params.ChainConfig]: a fork is a block number, [None] when not scheduled. *)
Record ChainConfig := {
  ChainID : Z;
  BerlinBlock : option Z;
  LondonBlock : option Z;
  MergeNetsplitBlock : option Z;
}.

(** [states.EVMConfig] *)
Record EVMConfig := {
  cfg_Params : Params;
  cfg_ChainConfig : ChainConfig;
  cfg_CoinBase : Address;
  cfg_BaseFee : option Z;
}.

(** [states.TxConfig] *)
Record TxConfig := {
  BlockHash : Hash.t;
  TxHash : Hash.t;
  TxIndex : Z;                         (* uint *)
  LogIndex : Z;                        (* uint *)
}.

(** [ethereum.Log] and the protobuf [txs.Log] carry the same fields. *)
Record EthLog := {
  el_Address : Address;
  el_Topics : list Hash.t;
  el_Data : list byte;
  el_Index : Z;
}.

Record ProtoLog := {
  pl_Address : Address;
  pl_Topics : list Hash.t;
  pl_Data : list byte;
  pl_Index : Z;
}.

(** [txs.MsgEthereumTxResponse] *)
Record MsgEthereumTxResponse := {
  res_Hash : Hash.t;
  res_Logs : list ProtoLog;
  res_Ret : list byte;
  res_VmError : string;
  res_GasUsed : Z;
  res_CumulativeGasUsed : Z;
}.

(** [ethereum.Receipt] *)
Record Receipt := {
  rc_Type : Z;
  rc_Status : Z;
  rc_CumulativeGasUsed : Z;
  rc_Bloom : N;
  rc_Logs : list EthLog;
  rc_TxHash : Hash.t;
  rc_ContractAddress : Address;
  rc_GasUsed : Z;
  rc_BlockHash : Hash.t;
  rc_BlockNumber : Z;
  rc_TransactionIndex : Z;
}.

(** [vm.BlockContext] ([CanTransfer] and [Transfer] are go-ethereum's own
    balance functions and belong to the virtual machine collaborator). *)
Record BlockContext := {
  GetHash : Z -> Hash.t;
  Coinbase : Address;
  bc_GasLimit : Z;
  BlockNumber : Z;
  bc_Time : Z;
  Difficulty : Z;
  bc_BaseFee : option Z;
  Random : option Hash.t;
}.

(** [vm.TxContext], as [core.NewEVMTxContext] fills it. *)
Record TxContext := { Origin : Address; tc_GasPrice : Z }.

(** The instrumentation hook, known by its name only. *)
Definition Tracer := string.

(** [vm.Config] *)
Record VMConfig := { vc_Tracer : Tracer; vc_NoBaseFee : bool; vc_ExtraEips : list Z }.

(** [vm.EVM]; the state database it points to is passed along explicitly. *)
Record EVM := {
  evm_Context : BlockContext;
  evm_TxContext : TxContext;
  evm_chainConfig : ChainConfig;
  evm_Config : VMConfig;
}.

(** A decoded [cometbft.Header]. *)
Record CometHeader := { ch_Proto : HeaderProto }.

(* ===================================================================== *)
(** ** Block-hash resolver *)
(* ===================================================================== *)

(** What the resolver needs from outside: header decoding and hashing
    (cometbft) and the staking keeper's history. *)
Record HashCollab := {
  HeaderFromProto : HeaderProto -> Result CometHeader;
  Header_Hash : CometHeader -> list byte;
  GetHistoricalInfo : cosmos.Context -> Z -> option HistoricalInfo;
}.

(** Modelled from the spec: [artela.SafeInt64], the height conversion whose
    error the resolver turns into the zero identifier; it is declared in
    [ethereum/types], outside the sources at hand. A [uint64] above
    [math.MaxInt64] has no [int64]. *)
Definition SafeInt64 (value : Z) : Result Z :=
  if U64.maxInt64 <? value
  then Err (Wrap ErrInvalidHeight "uint64 value cannot exceed MaxInt64")
  else Ok value.

Section Resolver.

Context (HC : HashCollab).

Definition GetHashFn (ctx : cosmos.Context) : Z -> Hash.t :=
  fun height =>
    match SafeInt64 height with
    | Ok h =>
        if cosmos.BlockHeight ctx =? h then
          (* Case 1: the height of the context *)
          let headerHash := cosmos.HeaderHash ctx in
          if negb (length headerHash =? 0)%nat then Hash.BytesToHash headerHash
          else
            match HeaderFromProto HC (cosmos.BlockHeader ctx) with
            | Ok header => Hash.BytesToHash (Header_Hash HC header)
            | _ => Hash.zero
            end
        else if h <? cosmos.BlockHeight ctx then
          (* Case 2: an earlier height, from the staking history *)
          match GetHistoricalInfo HC ctx h with
          | None => Hash.zero
          | Some histInfo =>
              match HeaderFromProto HC (hi_Header histInfo) with
              | Ok header => Hash.BytesToHash (Header_Hash HC header)
              | _ => Hash.zero
              end
          end
        else
          (* Case 3: a later height *)
          Hash.zero
    | _ => Hash.zero
    end.

End Resolver.

(* ===================================================================== *)
(** ** State database *)
(* ===================================================================== *)

(** Modelled from the spec: StateSnapshot, the "isolated, rollback-capable
    view of the ledger exposed to MessageExecutor" with its "account
    balance/nonce read-modify operations"; [states.StateDB] is declared in
    [x/evm/states], outside the sources at hand. It is a working copy of the
    accounts with the refund counter, the logs and the access list of the
    running transaction; [Commit] writes the working copy to the context. *)
Record StateDB := {
  db_Accounts : gmap Z Account;
  db_Refund : Z;
  db_Logs : list EthLog;
  db_AccessAddrs : list Address;
  db_AccessSlots : list (Address * Hash.t);
  db_TxConfig : TxConfig;
}.

(** [vm.EVM.Create] and [vm.EVM.Call] hand back these values. *)
Record CreateResult := {
  cr_ret : list byte;
  cr_addr : Address;
  cr_leftOverGas : Z;
  cr_err : option string;              (* nil, or the text of the VM error *)
}.

Record CallResult := {
  ca_ret : list byte;
  ca_leftOverGas : Z;
  ca_err : option string;
}.

(** [params.Rules], the forks asked about here. *)
Record Rules := { IsBerlin : bool; IsLondon_ : bool; IsMerge : bool }.

Module states.

(** Modelled from the spec: [states.New] opens the snapshot on the ledger
    of the context. *)
Definition New (ctx : cosmos.Context) (txConfig : TxConfig) : StateDB :=
  {| db_Accounts := accounts (ledger (cosmos.Store ctx));
     db_Refund := 0; db_Logs := [];
     db_AccessAddrs := []; db_AccessSlots := [];
     db_TxConfig := txConfig |}.

Definition getAccount (db : StateDB) (addr : Address) : Account :=
  default emptyAccount (db_Accounts db !! addr).


(** Modelled from the spec: the nonce write operation; an account that does
    not exist yet is created. *)
Definition SetNonce (db : StateDB) (addr : Address) (nonce : Z) : StateDB :=
  let a := getAccount db addr in
  {| db_Accounts :=
       <[addr := {| acc_Nonce := nonce; acc_Balance := acc_Balance a;
                    acc_Code := acc_Code a; acc_Storage := acc_Storage a |}]>
         (db_Accounts db);
     db_Refund := db_Refund db; db_Logs := db_Logs db;
     db_AccessAddrs := db_AccessAddrs db; db_AccessSlots := db_AccessSlots db;
     db_TxConfig := db_TxConfig db |}.

(** The refund counter, a [uint64]. *)
Definition GetRefund (db : StateDB) : Z := U64.wrap (db_Refund db).

Definition Logs (db : StateDB) : list EthLog := db_Logs db.

(** Modelled from the spec: "pre-populate the snapshot's access list from
    the message": sender, recipient, precompiles and the listed entries. *)
Definition PrepareAccessList (db : StateDB) (sender : Address) (dst : option Address)
    (precompiles : list Address) (l : list (Address * list Hash.t)) : StateDB :=
  {| db_Accounts := db_Accounts db;
     db_Refund := db_Refund db; db_Logs := db_Logs db;
     db_AccessAddrs :=
       sender :: option_list dst ++ precompiles ++ map fst l;
     db_AccessSlots :=
       flat_map (fun el => map (fun key => (fst el, key)) (snd el)) l;
     db_TxConfig := db_TxConfig db |}.

(** Modelled from the spec: "commit": the working copy becomes the ledger of
    the context. The underlying store can refuse it: [failure] is then its
    error together with the ledger as the failed commit leaves it, of which
    nothing is assumed (it can be the ledger as it was, or one written in
    part). Returns the context and the [error] of the Go method. *)
Definition Commit (failure : option (Error * Ledger)) (db : StateDB) (ctx : cosmos.Context)
    : cosmos.Context * option Error :=
  match failure with
  | Some (e, l) => (cosmos.WithLedger ctx l, Some e)
  | None => (cosmos.WithLedger ctx {| accounts := db_Accounts db |}, None)
  end.

End states.

(* ===================================================================== *)
(** ** Gas accounting *)
(* ===================================================================== *)

(** go-ethereum's [params.RefundQuotient] and [params.RefundQuotientEIP3529]
    ("After EIP-3529: refunds are capped to gasUsed / 5"). *)
Definition RefundQuotient : Z := 2.
Definition RefundQuotientEIP3529 : Z := 5.

(** Modelled from the spec: CapRefund(rawRefundCounter, gasUsedBeforeRefund,
    quotient) is min(rawRefundCounter, gasUsedBeforeRefund / quotient); the
    keeper's [GasToRefund] is declared outside the sources at hand. *)
Definition GasToRefund (availableRefund gasConsumed refundQuotient : Z) : Z :=
  Z.min availableRefund (gasConsumed / refundQuotient).

(** go-ethereum's [isBlockForked]. *)
Definition isBlockForked (s : option Z) (head : Z) : bool :=
  match s with
  | None => false
  | Some s => s <=? head
  end.

Definition IsLondon (c : ChainConfig) (num : Z) : bool := isBlockForked (LondonBlock c) num.
Definition IsBerlinFork (c : ChainConfig) (num : Z) : bool := isBlockForked (BerlinBlock c) num.

(** [ChainConfig.Rules(num, isMerge, timestamp)] *)
Definition ChainRules (c : ChainConfig) (num : Z) (isMerge : bool) (timestamp : Z) : Rules :=
  {| IsBerlin := IsBerlinFork c num; IsLondon_ := IsLondon c num; IsMerge := isMerge |}.

(* ===================================================================== *)
(** ** Message execution *)
(* ===================================================================== *)

(** What [NewEVM] and [ApplyMessageWithConfig] need from outside: the
    virtual machine, the intrinsic-gas computation, keeper options and
    parameters. *)
Record ExecCollab := {
  ec_Hash : HashCollab;
  BlockGasLimit : cosmos.Context -> Z;                       (* artela.BlockGasLimit *)
  k_Tracer : cosmos.Context -> Message -> ChainConfig -> Tracer;
  k_VMConfig : cosmos.Context -> Message -> EVMConfig -> Tracer -> VMConfig;
  GetEthIntrinsicGas : cosmos.Context -> Message -> ChainConfig -> bool -> Result Z;
  ActivePrecompiles : Rules -> list Address;
  evm_Create : EVM -> StateDB -> Address -> list byte -> Z -> Z -> StateDB * CreateResult;
  evm_Call : EVM -> StateDB -> Address -> Address -> list byte -> Z -> Z -> StateDB * CallResult;
  GetMinGasMultiplier : cosmos.Context -> Dec.t;
  CommitFailure : StateDB -> cosmos.Context -> option (Error * Ledger);
}.

(** The values the locals of [ApplyMessageWithConfig] go through, kept
    beside the response so that properties of them can be stated. *)
Record Frame := {
  fr_isLondon : bool;
  fr_refundQuotient : Z;
  fr_preCreate : option StateDB;   (* the state handed to [evm.Create] *)
  fr_stateDB : StateDB;            (* the state after the call or creation *)
  fr_vmLeftoverGas : Z;            (* leftoverGas as the VM returned it *)
  fr_vmErr : option string;        (* vmErr *)
  fr_gasBeforeRefund : Z;          (* temporaryGasUsed, line 362 *)
  fr_rawRefund : Z;                (* stateDB.GetRefund() *)
  fr_refund : Z;                   (* refund *)
  fr_leftoverAfterRefund : Z;      (* leftoverGas, line 366 *)
  fr_gasAfterRefund : Z;           (* temporaryGasUsed, line 367 *)
  fr_minimumGasUsed : Dec.t;       (* minimumGasUsed *)
  fr_leftoverGas : Z;              (* leftoverGas at the return *)
}.

Definition is_nil {A} (o : option A) : bool :=
  match o with None => true | Some _ => false end.

(** [support.NewLogsFromEth] and [support.LogsToEthereum]: field by field. *)
Definition NewLogFromEth (l : EthLog) : ProtoLog :=
  {| pl_Address := el_Address l; pl_Topics := el_Topics l;
     pl_Data := el_Data l; pl_Index := el_Index l |}.
Definition NewLogsFromEth (ls : list EthLog) : list ProtoLog := map NewLogFromEth ls.

Definition LogToEthereum (l : ProtoLog) : EthLog :=
  {| el_Address := pl_Address l; el_Topics := pl_Topics l;
     el_Data := pl_Data l; el_Index := pl_Index l |}.
Definition LogsToEthereum (ls : list ProtoLog) : list EthLog := map LogToEthereum ls.

Section Executor.

Context (EC : ExecCollab).

Definition NewEVM (ctx : cosmos.Context) (msg : Message) (cfg : EVMConfig)
    (tracer : option Tracer) : EVM :=
  let blockCtx :=
    {| GetHash := GetHashFn (ec_Hash EC) ctx;
       Coinbase := cfg_CoinBase cfg;
       bc_GasLimit := BlockGasLimit EC ctx;
       BlockNumber := cosmos.BlockHeight ctx;
       bc_Time := U64.wrap (hp_Time (cosmos.BlockHeader ctx));
       Difficulty := 0;
       bc_BaseFee := cfg_BaseFee cfg;
       Random := None |} in
  let txCtx := {| Origin := From msg; tc_GasPrice := GasPrice msg |} in
  let tracer :=
    match tracer with
    | None => k_Tracer EC ctx msg (cfg_ChainConfig cfg)
    | Some t => t
    end in
  let vmConfig := k_VMConfig EC ctx msg cfg tracer in
  {| evm_Context := blockCtx; evm_TxContext := txCtx;
     evm_chainConfig := cfg_ChainConfig cfg; evm_Config := vmConfig |}.

(** Lines 339-348: the creation or the call. The gas the virtual machine
    hands back is a [uint64]. Returns the state, the state handed to
    [evm.Create] (creation only), [ret], [leftoverGas] and [vmErr]. *)
Definition execute (evm : EVM) (stateDB : StateDB) (msg : Message) (leftoverGas : Z)
    : StateDB * option StateDB * list byte * Z * option string :=
  let sender := From msg in
  match To msg with
  | None =>
      let pre := states.SetNonce stateDB sender (Nonce msg) in
      let '(stateDB, r) := evm_Create EC evm pre sender (Data msg) leftoverGas (Value msg) in
      let stateDB := states.SetNonce stateDB sender (U64.add (Nonce msg) 1) in
      (stateDB, Some pre, cr_ret r, U64.wrap (cr_leftOverGas r), cr_err r)
  | Some to =>
      let '(stateDB, r) := evm_Call EC evm stateDB sender to (Data msg) leftoverGas (Value msg) in
      (stateDB, None, ca_ret r, U64.wrap (ca_leftOverGas r), ca_err r)
  end.

Definition ApplyMessageWithConfig (ctx : cosmos.Context) (msg : Message)
    (tracer : option Tracer) (commit : bool) (cfg : EVMConfig) (txConfig : TxConfig)
    : cosmos.Context * Result (MsgEthereumTxResponse * Frame) :=
  (* return error if contract creation or call are disabled through governance *)
  if negb (EnableCreate (cfg_Params cfg)) && is_nil (To msg) then
    (ctx, Err (Wrap ErrCreateDisabled "failed to create new contract"))
  else if negb (EnableCall (cfg_Params cfg)) && negb (is_nil (To msg)) then
    (ctx, Err (Wrap ErrCallDisabled "failed to call contract"))
  else
  let stateDB := states.New ctx txConfig in
  let evm := NewEVM ctx msg cfg tracer in
  let leftoverGas := GasLimit msg in
  let contractCreation := is_nil (To msg) in
  let isLondon := IsLondon (cfg_ChainConfig cfg) (BlockNumber (evm_Context evm)) in
  match GetEthIntrinsicGas EC ctx msg (cfg_ChainConfig cfg) contractCreation with
  | Err e => (ctx, Err (Wrap e "intrinsic gas failed"))
  | Panic s => (ctx, Panic s)
  | Ok intrinsicGas =>
  let intrinsicGas := U64.wrap intrinsicGas in
  if leftoverGas <? intrinsicGas then
    (ctx, Err (Wrap ErrIntrinsicGas "apply message"))
  else
  let leftoverGas := U64.sub leftoverGas intrinsicGas in
  let rules := ChainRules (cfg_ChainConfig cfg) (cosmos.BlockHeight ctx)
                 (negb (is_nil (MergeNetsplitBlock (cfg_ChainConfig cfg))))
                 (U64.wrap (cosmos.BlockTime ctx)) in
  let stateDB :=
    if IsBerlin rules
    then states.PrepareAccessList stateDB (From msg) (To msg)
           (ActivePrecompiles EC rules) (AccessList msg)
    else stateDB in
  let '(stateDB, preCreate, ret, vmLeftover, vmErr) := execute evm stateDB msg leftoverGas in
  let leftoverGas := vmLeftover in
  (* After EIP-3529: refunds are capped to gasUsed / 5 *)
  let refundQuotient := if isLondon then RefundQuotientEIP3529 else RefundQuotient in
  (* calculate gas refund *)
  if GasLimit msg <? leftoverGas then
    (ctx, Err (Wrap ErrGasOverflow "apply message"))
  else
  let temporaryGasUsed := U64.sub (GasLimit msg) leftoverGas in
  let rawRefund := states.GetRefund stateDB in
  let refund := GasToRefund rawRefund temporaryGasUsed refundQuotient in
  (* update leftoverGas and temporaryGasUsed with refund amount *)
  let leftoverAfterRefund := U64.add leftoverGas refund in
  let gasAfterRefund := U64.sub temporaryGasUsed refund in
  (* EVM execution error needs to be available for the JSON-RPC client *)
  let vmError := match vmErr with Some e => e | None => EmptyString end in
  (* The dirty states in StateDB is either committed or discarded after return *)
  let '(ctx', err) :=
    if commit then states.Commit (CommitFailure EC stateDB ctx) stateDB ctx else (ctx, None) in
  match err with
  | Some e => (ctx', Err (Wrap e "failed to commit stateDB"))
  | None =>
  let gasLimit := Dec.NewDec (U64.to_int64 (GasLimit msg)) in
  let minGasMultiplier := GetMinGasMultiplier EC ctx' in
  match Dec.Mul gasLimit minGasMultiplier with
  | Err e => (ctx', Err e)
  | Panic s => (ctx', Panic s)
  | Ok minimumGasUsed =>
  if GasLimit msg <? leftoverAfterRefund then
    (ctx', Err (Wrap ErrGasOverflow "message gas limit < leftover gas"))
  else
  match Dec.Uint64 (Dec.TruncateInt
          (Dec.MaxDec minimumGasUsed (Dec.NewDec (U64.to_int64 gasAfterRefund)))) with
  | Err e => (ctx', Err e)
  | Panic s => (ctx', Panic s)
  | Ok gasUsed =>
  (* reset leftoverGas, to be used by the tracer *)
  let leftoverGas := U64.sub (GasLimit msg) gasUsed in
  (ctx',
   Ok ({| res_Hash := TxHash txConfig;
          res_Logs := NewLogsFromEth (states.Logs stateDB);
          res_Ret := ret;
          res_VmError := vmError;
          res_GasUsed := gasUsed;
          res_CumulativeGasUsed := 0 |},
       {| fr_isLondon := isLondon;
          fr_refundQuotient := refundQuotient;
          fr_preCreate := preCreate;
          fr_stateDB := stateDB;
          fr_vmLeftoverGas := vmLeftover;
          fr_vmErr := vmErr;
          fr_gasBeforeRefund := temporaryGasUsed;
          fr_rawRefund := rawRefund;
          fr_refund := refund;
          fr_leftoverAfterRefund := leftoverAfterRefund;
          fr_gasAfterRefund := gasAfterRefund;
          fr_minimumGasUsed := minimumGasUsed;
          fr_leftoverGas := leftoverGas |}))
  end end end end.

End Executor.

(* ===================================================================== *)
(** ** Transaction application *)
(* ===================================================================== *)

(** [ethereum.Signer], as [MakeSigner] picks it. *)
Record Signer := { sg_ChainID : Z; sg_Rules : string }.

(** The keeper's own fields read here. *)
Record Keeper := { eip155ChainID : Z }.

(** What [ApplyTransaction] needs from outside besides the executor:
    configuration loading, the derivation of the message from the signed
    envelope, the bloom of a log list, the address of a created contract and
    the fee refund, which credits the ledger. *)
Record ApplyCollab := {
  ac_Exec : ExecCollab;
  k_EVMConfig : cosmos.Context -> list byte -> Z -> Result EVMConfig;
  k_TxConfig : cosmos.Context -> Hash.t -> Z -> TxConfig;
  MakeSigner : ChainConfig -> Z -> Z -> Signer;
  TransactionToMessage : Transaction -> Signer -> option Z -> Result Message;
  LogsBloom : list EthLog -> N;
  CreateAddress : Address -> Z -> Address;
  RefundGas : Ledger -> Message -> Z -> string -> Result Ledger;
}.

Definition ReceiptStatusFailed : Z := 0.
Definition ReceiptStatusSuccessful : Z := 1.

Definition BloomByteLength : N := 256.

(** [ethereum.BytesToBloom(bloom.Bytes())]: panics when the number needs
    more than 256 bytes, else the number itself, right-aligned. *)
Definition BytesToBloom (b : N) : Result N :=
  if (b <? 2 ^ (8 * BloomByteLength))%N then Ok b else Panic "bloom bytes too big".

(** [MsgEthereumTxResponse.Failed]: the VM error text is not empty. *)
Definition Failed (res : MsgEthereumTxResponse) : bool :=
  negb (String.length (res_VmError res) =? 0)%nat.

Module transient.

(** Modelled from the spec: the transient getters and setters of the keeper
    (see [TransientBlockState]). *)
Definition GetBlockBloomTransient (ctx : cosmos.Context) : N :=
  tr_Bloom (transient (cosmos.Store ctx)).

Definition SetBlockBloomTransient (ctx : cosmos.Context) (bloom : N) : cosmos.Context :=
  let t := transient (cosmos.Store ctx) in
  cosmos.WithTransient ctx
    {| tr_Bloom := bloom; tr_LogSize := tr_LogSize t;
       tr_TxIndex := tr_TxIndex t; tr_GasUsed := tr_GasUsed t |}.

Definition SetLogSizeTransient (ctx : cosmos.Context) (logSize : Z) : cosmos.Context :=
  let t := transient (cosmos.Store ctx) in
  cosmos.WithTransient ctx
    {| tr_Bloom := tr_Bloom t; tr_LogSize := logSize;
       tr_TxIndex := tr_TxIndex t; tr_GasUsed := tr_GasUsed t |}.

Definition SetTxIndexTransient (ctx : cosmos.Context) (index : Z) : cosmos.Context :=
  let t := transient (cosmos.Store ctx) in
  cosmos.WithTransient ctx
    {| tr_Bloom := tr_Bloom t; tr_LogSize := tr_LogSize t;
       tr_TxIndex := index; tr_GasUsed := tr_GasUsed t |}.

Definition GetTransientGasUsed (ctx : cosmos.Context) : Z :=
  tr_GasUsed (transient (cosmos.Store ctx)).

Definition SetTransientGasUsed (ctx : cosmos.Context) (gasUsed : Z) : cosmos.Context :=
  let t := transient (cosmos.Store ctx) in
  cosmos.WithTransient ctx
    {| tr_Bloom := tr_Bloom t; tr_LogSize := tr_LogSize t;
       tr_TxIndex := tr_TxIndex t; tr_GasUsed := gasUsed |}.

(** Modelled from the spec: "total gas used for the block" grows by the gas
    of the transaction; the sum of two [uint64] that wraps around is the
    failure [ApplyTransaction] reports as "failed to add transient gas
    used". *)
Definition AddTransientGasUsed (ctx : cosmos.Context) (gasUsed : Z)
    : Result (cosmos.Context * Z) :=
  let result := U64.add (GetTransientGasUsed ctx) gasUsed in
  if result <? gasUsed then Err ErrGasOverflow
  else Ok (SetTransientGasUsed ctx result, result).

(** Modelled from the spec: "reset the consensus-level gas meter to reflect
    the execution-engine-measured total". *)
Definition ResetGasMeterAndConsumeGas (ctx : cosmos.Context) (gasUsed : Z) : cosmos.Context :=
  cosmos.WithGasMeter ctx
    {| gm_Limit := gm_Limit (cosmos.TxGasMeter ctx); gm_Consumed := gasUsed |}.

End transient.

(** Lines 173-181: the cumulative gas of the receipt. *)
Definition cumulativeGas (meter : option GasMeter) (gasUsed : Z) : Z :=
  let cumulativeGasUsed := gasUsed in
  match meter with
  | Some m =>
      let limit := gm_Limit m in
      let cumulativeGasUsed := U64.add cumulativeGasUsed (gm_Consumed m) in
      if limit <? cumulativeGasUsed then limit else cumulativeGasUsed
  | None => cumulativeGasUsed
  end.

(** What [ApplyTransaction] built on the way, kept beside the response. *)
Record Applied := {
  ap_msg : Message;
  ap_txConfig : TxConfig;
  ap_snapshot : cosmos.Context;    (* tmpCtx after the execution *)
  ap_frame : Frame;
  ap_receipt : Receipt;
  ap_committed : bool;             (* commit() was called *)
  ap_base : cosmos.Context;        (* ctx after the commit-or-discard decision *)
  ap_refunded : Z;                 (* the leftover gas handed to RefundGas *)
  ap_totalGasUsed : Z;             (* totalGasUsed *)
}.

Section Applier.

Context (AC : ApplyCollab) (k : Keeper).

Definition ApplyTransaction (ctx : cosmos.Context) (tx : Transaction)
    : cosmos.Context * Result (MsgEthereumTxResponse * Applied) :=
  (* build evm config and txs config *)
  match k_EVMConfig AC ctx (hp_ProposerAddress (cosmos.BlockHeader ctx)) (eip155ChainID k) with
  | Err e => (ctx, Err (Wrap e "failed to load evm config"))
  | Panic s => (ctx, Panic s)
  | Ok evmConfig =>
  let txConfig := k_TxConfig AC ctx (tx_Hash tx) (tx_Type tx) in
  (* get the signer according to the chain rules from the config and block height *)
  let signer := MakeSigner AC (cfg_ChainConfig evmConfig) (cosmos.BlockHeight ctx)
                  (U64.wrap (cosmos.BlockTime ctx)) in
  match TransactionToMessage AC tx signer (cfg_BaseFee evmConfig) with
  | Err e => (ctx, Err (Wrap e "failed to return ethereum txs as core message"))
  | Panic s => (ctx, Panic s)
  | Ok msg =>
  (* snapshot to contain the txs processing and post processing in same scope *)
  let tmpCtx := cosmos.CacheContext ctx in
  (* pass true to commit the StateDB *)
  match ApplyMessageWithConfig (ac_Exec AC) tmpCtx msg None true evmConfig txConfig with
  | (_, Err e) => (ctx, Err (Wrap e "failed to apply ethereum core message"))
  | (_, Panic s) => (ctx, Panic s)
  | (tmpCtx, Ok (res, frame)) =>
  let logs := LogsToEthereum (res_Logs res) in
  (* Compute block bloom filter *)
  match (if (0 <? length logs)%nat
         then BytesToBloom (N.lor (transient.GetBlockBloomTransient ctx) (LogsBloom AC logs))
         else Ok 0%N) with
  | Err e => (ctx, Err e)
  | Panic s => (ctx, Panic s)
  | Ok bloomReceipt =>
  let cumulativeGasUsed := cumulativeGas (cosmos.BlockGasMeter ctx) (res_GasUsed res) in
  let res :=
    {| res_Hash := res_Hash res; res_Logs := res_Logs res; res_Ret := res_Ret res;
       res_VmError := res_VmError res; res_GasUsed := res_GasUsed res;
       res_CumulativeGasUsed := cumulativeGasUsed |} in
  let contractAddr :=
    match To msg with
    | None => CreateAddress AC (From msg) (Nonce msg)
    | Some _ => 0
    end in
  let committed := negb (Failed res) in
  let receipt :=
    {| rc_Type := tx_Type tx;
       rc_Status := if committed then ReceiptStatusSuccessful else ReceiptStatusFailed;
       rc_CumulativeGasUsed := cumulativeGasUsed;
       rc_Bloom := bloomReceipt;
       rc_Logs := logs;
       rc_TxHash := TxHash txConfig;
       rc_ContractAddress := contractAddr;
       rc_GasUsed := res_GasUsed res;
       rc_BlockHash := BlockHash txConfig;
       rc_BlockNumber := cosmos.BlockHeight ctx;
       rc_TransactionIndex := TxIndex txConfig |} in
  let '(ctx1, res) :=
    if committed then
      (cosmos.EmitEvents (cosmos.CommitCache ctx tmpCtx) (cosmos.Events tmpCtx),
       {| res_Hash := res_Hash res; res_Logs := NewLogsFromEth (rc_Logs receipt);
          res_Ret := res_Ret res; res_VmError := res_VmError res;
          res_GasUsed := res_GasUsed res;
          res_CumulativeGasUsed := res_CumulativeGasUsed res |})
    else (ctx, res) in
  (* refund gas in order to match the Ethereum gas consumption instead of the default SDK one. *)
  let refunded := U64.sub (GasLimit msg) (res_GasUsed res) in
  match RefundGas AC (ledger (cosmos.Store ctx1)) msg refunded
          (EvmDenom (cfg_Params evmConfig)) with
  | Err e => (ctx1, Err (Wrap e "failed to refund gas leftover gas to sender"))
  | Panic s => (ctx1, Panic s)
  | Ok l =>
  let ctx2 := cosmos.WithLedger ctx1 l in
  let ctx3 :=
    if (0 <? length (rc_Logs receipt))%nat then
      (* Update transient block bloom filter *)
      transient.SetLogSizeTransient
        (transient.SetBlockBloomTransient ctx2 (rc_Bloom receipt))
        (U64.add (U64.wrap (LogIndex txConfig)) (U64.wrap (Z.of_nat (length (rc_Logs receipt)))))
    else ctx2 in
  let ctx4 := transient.SetTxIndexTransient ctx3 (U64.add (U64.wrap (TxIndex txConfig)) 1) in
  match transient.AddTransientGasUsed ctx4 (res_GasUsed res) with
  | Err e => (ctx4, Err (Wrap e "failed to add transient gas used"))
  | Panic s => (ctx4, Panic s)
  | Ok (ctx5, totalGasUsed) =>
  (* reset the gas meter for current cosmos txs *)
  let ctx6 := transient.ResetGasMeterAndConsumeGas ctx5 totalGasUsed in
  (ctx6,
   Ok (res,
       {| ap_msg := msg; ap_txConfig := txConfig; ap_snapshot := tmpCtx;
          ap_frame := frame; ap_receipt := receipt;
          ap_committed := committed; ap_base := ctx1;
          ap_refunded := refunded; ap_totalGasUsed := totalGasUsed |}))
  end end end end end end.

(** [ApplyMessage] calls [ApplyMessageWithConfig] with an empty [TxConfig]. *)
Definition NewEmptyTxConfig (bhash : Hash.t) : TxConfig :=
  {| BlockHash := bhash; TxHash := Hash.zero; TxIndex := 0; LogIndex := 0 |}.

Definition ApplyMessage (ctx : cosmos.Context) (msg : Message) (tracer : option Tracer)
    (commit : bool) : cosmos.Context * Result (MsgEthereumTxResponse * Frame) :=
  match k_EVMConfig AC ctx (hp_ProposerAddress (cosmos.BlockHeader ctx)) (eip155ChainID k) with
  | Err e => (ctx, Err (Wrap e "failed to load evm config"))
  | Panic s => (ctx, Panic s)
  | Ok evmConfig =>
      let txConfig := NewEmptyTxConfig (Hash.BytesToHash (cosmos.HeaderHash ctx)) in
      ApplyMessageWithConfig (ac_Exec AC) ctx msg tracer commit evmConfig txConfig
  end.

End Applier.

(* ===================================================================== *)
(** ** Signature verification stage *)
(* ===================================================================== *)

(** [txs.MsgEthereumTx]: the signed envelope and the sender field, empty
    ([None]) until the stage fills it with the recovered address. *)
Record MsgEthereumTx := {
  met_Transaction : Transaction;       (* AsTransaction() *)
  met_CallTransaction : Transaction;   (* AsEthCallTransaction() *)
  met_From : option Address;
}.

(** A message of a [cosmos.Tx]: an Ethereum message or one of another type. *)
Inductive Msg : Type :=
  | EthereumTxMsg (m : MsgEthereumTx)
  | OtherMsg (typeName : string).

(** [cosmos.Tx] *)
Record Tx := { GetMsgs : list Msg }.

(** The keeper behind the stage, [EVMKeeper.VerifySig]: recovery of the
    sender under the configured chain identifier, an error ([inl]) or the
    sender with the signed bytes ([inr]). Its code is outside the sources
    at hand; as the signature-recovery collaborator of the spec it is taken
    to read the context and the transaction and to write nothing, so what
    the stage is shown to leave untouched is what its own statements leave
    untouched. *)
Record AnteCollab := {
  VerifySig : cosmos.Context -> Transaction -> Error + (Address * list byte);
}.

(** [cosmos.AnteHandler] *)
Definition AnteHandler := cosmos.Context -> Tx -> bool -> cosmos.Context * Result unit.

Definition SetFrom (m : MsgEthereumTx) (sender : Address) : MsgEthereumTx :=
  {| met_Transaction := met_Transaction m;
     met_CallTransaction := met_CallTransaction m;
     met_From := Some sender |}.

(** [types.NewAspectRuntimeContext] with [SetEthTxContext]; the back
    pointer to the context set by [WithCosmosContext] is left out. *)
Definition aspectContextOf (m : MsgEthereumTx) : AspectRuntimeContext :=
  {| arc_EthTxContext := Some (met_CallTransaction m) |}.

Section SigVerification.

Context (AK : AnteCollab).

(** The loop of [AnteHandle] over [tx.GetMsgs()]: the messages as the loop
    leaves them, the context it leaves, and the error it stopped on. *)
Fixpoint verifyMsgs (ctx : cosmos.Context) (msgs : list Msg)
    : list Msg * cosmos.Context * Result unit :=
  match msgs with
  | [] => ([], ctx, Ok tt)
  | msg :: rest =>
      match msg with
      | OtherMsg _ =>
          (msg :: rest, ctx, Err (Wrap ErrUnknownRequest "invalid message type"))
      | EthereumTxMsg msgEthTx =>
          let ctx := cosmos.WithAspectContext ctx (aspectContextOf msgEthTx) in
          let ethTx := met_Transaction msgEthTx in
          match VerifySig AK ctx ethTx with
          | inl err => (msg :: rest, ctx, Err err)
          | inr (sender, _) =>
              (* set up the sender to the transaction field if not already *)
              let '(rest, ctx, r) := verifyMsgs ctx rest in
              (EthereumTxMsg (SetFrom msgEthTx sender) :: rest, ctx, r)
          end
      end
  end.

(** A message passes the stage: it is an Ethereum message and the sender
    recovery succeeds on it, in the context the loop calls it with. *)
Definition verifies (ctx : cosmos.Context) (msg : Msg) : bool :=
  match msg with
  | EthereumTxMsg m =>
      match VerifySig AK (cosmos.WithAspectContext ctx (aspectContextOf m))
              (met_Transaction m) with
      | inr _ => true
      | inl _ => false
      end
  | OtherMsg _ => false
  end.

(** What the stage does to a message it accepts: the recovered sender is
    written to its [From] field. *)
Definition senderSet (ctx : cosmos.Context) (before after : Msg) : Prop :=
  exists m sender sig,
    before = EthereumTxMsg m /\
    VerifySig AK (cosmos.WithAspectContext ctx (aspectContextOf m))
      (met_Transaction m) = inr (sender, sig) /\
    after = EthereumTxMsg (SetFrom m sender).

(** [EthSigVerificationDecorator.AnteHandle]; the transaction comes back
    with its messages as the loop mutated them. *)
Definition AnteHandle (ctx : cosmos.Context) (tx : Tx) (simulate : bool)
    (next : AnteHandler) : Tx * (cosmos.Context * Result unit) :=
  let '(msgs, ctx, r) := verifyMsgs ctx (GetMsgs tx) in
  let tx := {| GetMsgs := msgs |} in
  match r with
  | Ok _ => (tx, next ctx tx simulate)
  | _ => (tx, (ctx, r))
  end.

End SigVerification.

(* ===================================================================== *)
(** ** Sample collaborators and inputs *)
(* ===================================================================== *)

(** Small implementations of the collaborators and concrete inputs, on
    which the functions above are run in the examples below. *)
Module Sample.

Definition header : HeaderProto :=
  {| hp_Version := 11; hp_Height := 5; hp_Time := 1700000000;
     hp_LastBlockId := [Byte.x01]; hp_DataHash := []; hp_ValidatorsHash := [Byte.x02];
     hp_AppHash := [Byte.x03]; hp_ProposerAddress := [Byte.x04] |}.

(** Decoding always succeeds; the identifier of a header is its app hash. *)
Definition hashCollab : HashCollab :=
  {| HeaderFromProto := fun p => Ok {| ch_Proto := p |};
     Header_Hash := fun h => hp_AppHash (ch_Proto h);
     GetHistoricalInfo := fun _ h =>
       if h =? 3 then Some {| hi_Header := header |} else None |}.

Definition store0 : MultiStore :=
  {| ledger := {| accounts := ∅ |};
     transient := {| tr_Bloom := 8; tr_LogSize := 4; tr_TxIndex := 2; tr_GasUsed := 0 |} |}.

(** A context at height 5 whose header hash is given. *)
Definition ctxWith (headerHash : list byte) (meter : option GasMeter) : cosmos.Context :=
  {| cosmos.BlockHeight := 5; cosmos.HeaderHash := headerHash;
     cosmos.BlockHeader := header; cosmos.BlockTime := 1700000000;
     cosmos.BlockGasMeter := meter;
     cosmos.TxGasMeter := {| gm_Limit := 100000; gm_Consumed := 7 |};
     cosmos.Store := store0; cosmos.Events := [];
     cosmos.IsCheckTx := false; cosmos.IsReCheckTx := true;
     cosmos.AspectContext := None |}.

Definition meter (consumed : Z) : option GasMeter :=
  Some {| gm_Limit := 30000000; gm_Consumed := consumed |}.

Definition ctx : cosmos.Context := ctxWith (replicate 31 x00 ++ [Byte.xab]) (meter 100000).

(** The header hash is set, to thirty-two zero bytes. *)
Definition ctxZeroHash : cosmos.Context := ctxWith (replicate 32 x00) (meter 100000).

Definition sampleLog : EthLog :=
  {| el_Address := 77; el_Topics := []; el_Data := []; el_Index := 4 |}.

(** A virtual machine that burns [used] gas (all of it when less is left),
    adds [refund] to the refund counter, emits [logs] and reports [vmErr]. *)
Definition vmRun (used refund : Z) (logs : list EthLog) (db : StateDB) : StateDB :=
  {| db_Accounts := db_Accounts db; db_Refund := db_Refund db + refund;
     db_Logs := db_Logs db ++ logs;
     db_AccessAddrs := db_AccessAddrs db; db_AccessSlots := db_AccessSlots db;
     db_TxConfig := db_TxConfig db |}.

Definition execCollab (used refund : Z) (logs : list EthLog) (vmErr : option string)
    (multiplier : Dec.t) : ExecCollab :=
  {| ec_Hash := hashCollab;
     BlockGasLimit := fun _ => 30000000;
     k_Tracer := fun _ _ _ => "default";
     k_VMConfig := fun _ _ _ t => {| vc_Tracer := t; vc_NoBaseFee := false; vc_ExtraEips := [] |};
     GetEthIntrinsicGas := fun _ _ _ creation => Ok (if creation then 53000 else 21000);
     ActivePrecompiles := fun _ => [1; 2; 3];
     evm_Create := fun _ db _ _ gas _ =>
       (vmRun used refund logs db,
        {| cr_ret := []; cr_addr := 4242;
           cr_leftOverGas := Z.max 0 (gas - used); cr_err := vmErr |});
     evm_Call := fun _ db _ _ _ gas _ =>
       (vmRun used refund logs db,
        {| ca_ret := []; ca_leftOverGas := Z.max 0 (gas - used); ca_err := vmErr |});
     GetMinGasMultiplier := fun _ => multiplier;
     CommitFailure := fun _ _ => None |}.

Definition half : Dec.t := 5 * 10 ^ 17.       (* 0.5 *)

(** Runs that burn 40000 gas, count 30000 of refund and emit one log: one
    that succeeds and one that reverts; and a run that burns nothing. *)
Definition vmSuccess : ExecCollab := execCollab 40000 30000 [sampleLog] None half.
Definition vmRevert : ExecCollab :=
  execCollab 40000 30000 [sampleLog] (Some "execution reverted") half.
Definition vmIdle : ExecCollab := execCollab 0 0 [] None half.

Definition params : Params :=
  {| EnableCreate := true; EnableCall := true; EvmDenom := "aart" |}.

Definition chainConfig (london : option Z) : ChainConfig :=
  {| ChainID := 11820; BerlinBlock := Some 0; LondonBlock := london;
     MergeNetsplitBlock := None |}.

Definition evmConfig (london : option Z) : EVMConfig :=
  {| cfg_Params := params; cfg_ChainConfig := chainConfig london;
     cfg_CoinBase := 9; cfg_BaseFee := None |}.

(** Governance flags as given, no fork scheduled but Berlin. *)
Definition evmConfigFlags (create call : bool) : EVMConfig :=
  {| cfg_Params := {| EnableCreate := create; EnableCall := call; EvmDenom := "aart" |};
     cfg_ChainConfig := chainConfig None; cfg_CoinBase := 9; cfg_BaseFee := None |}.

Definition txConfig : TxConfig :=
  {| BlockHash := Hash.zero; TxHash := Hash.zero; TxIndex := 2; LogIndex := 4 |}.

Definition callMsg (gasLimit : Z) : Message :=
  {| To := Some 500; From := 100; Nonce := 7; Value := 0; GasLimit := gasLimit;
     GasPrice := 1; Data := []; AccessList := [] |}.

Definition createMsg (gasLimit : Z) : Message :=
  {| To := None; From := 100; Nonce := 7; Value := 0; GasLimit := gasLimit;
     GasPrice := 1; Data := [Byte.x60]; AccessList := [] |}.

Definition transaction (gasLimit : Z) (to : option Address) : Transaction :=
  {| tx_Type := 0; tx_Hash := Hash.zero; tx_Nonce := 7; tx_Gas := gasLimit;
     tx_To := to; tx_Value := 0; tx_Data := []; tx_V := 27; tx_R := 1; tx_S := 1 |}.

Definition messageOf (t : Transaction) : Message :=
  {| To := tx_To t; From := 100; Nonce := tx_Nonce t; Value := tx_Value t;
     GasLimit := tx_Gas t; GasPrice := 1; Data := tx_Data t; AccessList := [] |}.

(** The refund credits the sender's balance with the unused gas. *)
Definition refundGas (l : Ledger) (msg : Message) (leftover : Z) (denom : string)
    : Result Ledger :=
  let a := default emptyAccount (accounts l !! From msg) in
  Ok {| accounts :=
          <[From msg := {| acc_Nonce := acc_Nonce a;
                           acc_Balance := acc_Balance a + leftover * GasPrice msg;
                           acc_Code := acc_Code a; acc_Storage := acc_Storage a |}]>
            (accounts l) |}.

Definition applyCollab (used refund : Z) (logs : list EthLog) (vmErr : option string)
    (multiplier : Dec.t) : ApplyCollab :=
  {| ac_Exec := execCollab used refund logs vmErr multiplier;
     k_EVMConfig := fun _ _ _ => Ok (evmConfig (Some 0));
     k_TxConfig := fun c h _ =>
       {| BlockHash := Hash.BytesToHash (cosmos.HeaderHash c); TxHash := h;
          TxIndex := tr_TxIndex (transient (cosmos.Store c));
          LogIndex := tr_LogSize (transient (cosmos.Store c)) |};
     MakeSigner := fun c _ _ => {| sg_ChainID := ChainID c; sg_Rules := "london" |};
     TransactionToMessage := fun t _ _ => Ok (messageOf t);
     LogsBloom := fun ls => if (0 <? length ls)%nat then 3%N else 0%N;
     CreateAddress := fun a n => a + n;
     RefundGas := refundGas |}.

Definition keeper : Keeper := {| eip155ChainID := 11820 |}.

(** A transaction that succeeds and emits one log, and one that reverts
    without a log. *)
Definition applySuccess : ApplyCollab := applyCollab 40000 30000 [sampleLog] None half.
Definition applyRevert : ApplyCollab :=
  applyCollab 40000 30000 [] (Some "execution reverted") half.

Definition callTx : Transaction := transaction 100000 (Some 500).



(** The signature is good when [R] is 1; the sender is then address 100. *)
Definition anteCollab : AnteCollab :=
  {| VerifySig := fun _ t =>
       if tx_R t =? 1 then inr (100, []) else inl (ErrCollaborator "invalid signature") |}.

Definition ethMsg (r : Z) : Msg :=
  let t := {| tx_Type := 0; tx_Hash := Hash.zero; tx_Nonce := 7; tx_Gas := 21000;
              tx_To := Some 500; tx_Value := 0; tx_Data := [];
              tx_V := 27; tx_R := r; tx_S := 1 |} in
  EthereumTxMsg {| met_Transaction := t; met_CallTransaction := t; met_From := None |}.

Definition nextOk : AnteHandler := fun c _ _ => (c, Ok tt).

(** Two well-signed messages; and a well-signed one before a badly signed one. *)
Definition goodTx : Tx := {| GetMsgs := [ethMsg 1; ethMsg 1] |}.
Definition badTx : Tx := {| GetMsgs := [ethMsg 1; ethMsg 2] |}.

End Sample.

(* ===================================================================== *)
(** ** Names for the statements *)
(* ===================================================================== *)

(** The state database handed to the call or creation: lines 302 and
    335-337 of [ApplyMessageWithConfig]. *)
Definition preparedStateDB (EC : ExecCollab) (ctx : cosmos.Context) (msg : Message)
    (cfg : EVMConfig) (txConfig : TxConfig) : StateDB :=
  let rules := ChainRules (cfg_ChainConfig cfg) (cosmos.BlockHeight ctx)
                 (negb (is_nil (MergeNetsplitBlock (cfg_ChainConfig cfg))))
                 (U64.wrap (cosmos.BlockTime ctx)) in
  if IsBerlin rules
  then states.PrepareAccessList (states.New ctx txConfig) (From msg) (To msg)
         (ActivePrecompiles EC rules) (AccessList msg)
  else states.New ctx txConfig.

(** The refund quotient in force at the height of the context. *)
Definition quotientAt (cfg : EVMConfig) (ctx : cosmos.Context) : Z :=
  if IsLondon (cfg_ChainConfig cfg) (cosmos.BlockHeight ctx)
  then RefundQuotientEIP3529 else RefundQuotient.

(** The nonce of an account in the ledger of a context. *)
Definition ledgerNonce (ctx : cosmos.Context) (addr : Address) : Z :=
  acc_Nonce (default emptyAccount (accounts (ledger (cosmos.Store ctx)) !! addr)).

(** The bloom of the receipt, lines 166-171 of [ApplyTransaction]. *)
Definition receiptBloom (AC : ApplyCollab) (ctx : cosmos.Context) (logs : list EthLog)
    : Result N :=
  if (0 <? length logs)%nat
  then BytesToBloom (N.lor (transient.GetBlockBloomTransient ctx) (LogsBloom AC logs))
  else Ok 0%N.

(** The context after the commit-or-discard decision, lines 202-209. *)
Definition settle (ctx tmpCtx : cosmos.Context) (committed : bool) : cosmos.Context :=
  if committed
  then cosmos.EmitEvents (cosmos.CommitCache ctx tmpCtx) (cosmos.Events tmpCtx)
  else ctx.

(** The transient bloom, log size and transaction index after lines 216-222. *)
Definition recordTransients (ctx : cosmos.Context) (receipt : Receipt) (txConfig : TxConfig)
    : cosmos.Context :=
  transient.SetTxIndexTransient
    (if (0 <? length (rc_Logs receipt))%nat then
       transient.SetLogSizeTransient
         (transient.SetBlockBloomTransient ctx (rc_Bloom receipt))
         (U64.add (U64.wrap (LogIndex txConfig))
            (U64.wrap (Z.of_nat (length (rc_Logs receipt)))))
     else ctx)
    (U64.add (U64.wrap (TxIndex txConfig)) 1).

(* ===================================================================== *)
(** ** Further names for the statements *)
(* ===================================================================== *)

(** Neither governance test of [ApplyMessageWithConfig] (lines 296-300)
    rejects the message. *)
Definition governanceAllows (cfg : EVMConfig) (msg : Message) : bool :=
  negb (negb (EnableCreate (cfg_Params cfg)) && is_nil (To msg))
  && negb (negb (EnableCall (cfg_Params cfg)) && negb (is_nil (To msg))).

(** The error comes from one of the two last fallible steps of
    [ApplyTransaction], the refund (line 212) or the transient gas total
    (line 224): its outermost wrap is theirs. *)
Definition lateFailure (e : Error) : bool :=
  match e with
  | Wrap _ context =>
      String.eqb context "failed to refund gas leftover gas to sender"
      || String.eqb context "failed to add transient gas used"
  | _ => false
  end.


(** Further sample collaborators and inputs. *)
Module Cases.


(** A context whose transient gas total is at the top of [uint64]. *)
Definition ctxGasFull : cosmos.Context :=
  cosmos.WithTransient Sample.ctx
    {| tr_Bloom := 8; tr_LogSize := 4; tr_TxIndex := 2; tr_GasUsed := U64.max |}.

(** A call whose gas limit is below the intrinsic gas. *)
Definition cheapTx : Transaction := Sample.transaction 20000 (Some 500).

(** A machine as [Sample.vmSuccess] over a store that fails every commit
    after it has written the accounts. *)
Definition vmCommitFails : ExecCollab :=
  {| ec_Hash := ec_Hash Sample.vmSuccess;
     BlockGasLimit := BlockGasLimit Sample.vmSuccess;
     k_Tracer := k_Tracer Sample.vmSuccess;
     k_VMConfig := k_VMConfig Sample.vmSuccess;
     GetEthIntrinsicGas := GetEthIntrinsicGas Sample.vmSuccess;
     ActivePrecompiles := ActivePrecompiles Sample.vmSuccess;
     evm_Create := evm_Create Sample.vmSuccess;
     evm_Call := evm_Call Sample.vmSuccess;
     GetMinGasMultiplier := GetMinGasMultiplier Sample.vmSuccess;
     CommitFailure := fun db _ =>
       Some (ErrCollaborator "store closed", {| accounts := db_Accounts db |}) |}.

End Cases.


(* ===================================================================== *)
(** ** The RPC service: account listing *)
(* ===================================================================== *)

Module EthAddress.

Definition AddressLength : nat := 20.

(** [common.Address] as its 20 bytes. *)
Definition t := list byte.

(** [common.BytesToAddress]: the last 20 bytes of [b], right-aligned. *)
Definition crop (b : list byte) : list byte :=
  if (AddressLength <? length b)%nat then drop (length b - AddressLength) b else b.

Definition BytesToAddress (b : list byte) : t :=
  replicate (AddressLength - length (crop b)) x00 ++ crop b.

End EthAddress.

(** [cryptotypes.PubKey], known by the bytes of its [Address()]. *)
Record PubKey := { pk_Address : list byte }.

(** [keyring.Record]; [GetPubKey()] gives the key or fails. *)
Record KeyRecord := { kr_Name : string; GetPubKey : Error + PubKey }.

(** [client.Context], the part read here: what [Keyring.List()] returns. *)
Record ClientContext := { Keyring_List : Error + list KeyRecord }.

(** The loop of [Accounts] over the records, from the addresses collected so
    far. A Go slice is [None] when it is nil. *)
Fixpoint collectAddresses (infos : list KeyRecord) (addresses : list EthAddress.t)
    : option (list EthAddress.t) * option Error :=
  match infos with
  | [] => (Some addresses, None)
  | info :: rest =>
      match GetPubKey info with
      | inl err => (None, Some err)
      | inr pubKey =>
          let addressBytes := pk_Address pubKey in
          collectAddresses rest (addresses ++ [EthAddress.BytesToAddress addressBytes])
      end
  end.

(** [rpc.Accounts] *)
Definition Accounts (clientCtx : ClientContext) : option (list EthAddress.t) * option Error :=
  let addresses := [] in  (* return [] instead of nil if empty *)
  match Keyring_List clientCtx with
  | inl err => (Some addresses, Some err)
  | inr infos => collectAddresses infos addresses
  end.

(** The key of a record, when it has one. *)
Definition keyOf (info : KeyRecord) : option PubKey :=
  match GetPubKey info with
  | inr pubKey => Some pubKey
  | inl _ => None
  end.

(** The address [Accounts] lists for a key. *)
Definition addressOf (pubKey : PubKey) : EthAddress.t :=
  EthAddress.BytesToAddress (pk_Address pubKey).

(** Sample keyrings. *)
Module Keys.

Definition alice : KeyRecord :=
  {| kr_Name := "alice"; GetPubKey := inr {| pk_Address := replicate 19 x00 ++ [Byte.x0a] |} |}.
(** A key whose address has 21 bytes. *)
Definition bob : KeyRecord :=
  {| kr_Name := "bob";
     GetPubKey := inr {| pk_Address := [Byte.xff] ++ replicate 19 x00 ++ [Byte.x0b] |} |}.
Definition broken : KeyRecord :=
  {| kr_Name := "broken"; GetPubKey := inl (ErrCollaborator "cannot unpack key") |}.

Definition good : ClientContext := {| Keyring_List := inr [alice; bob] |}.
Definition bad : ClientContext := {| Keyring_List := inr [alice; broken; bob] |}.
Definition locked : ClientContext :=
  {| Keyring_List := inl (ErrCollaborator "keyring locked") |}.

End Keys.

Module U64Facts.
Import U64.

Lemma wrap_range z : in_range (wrap z).
Proof. unfold in_range, wrap, modulus. apply Z.mod_pos_bound. lia. Qed.

Lemma wrap_small z : in_range z -> wrap z = z.
Proof. unfold in_range, wrap. intros H. apply Z.mod_small. exact H. Qed.

Lemma add_small a b : 0 <= a -> 0 <= b -> a + b < modulus -> add a b = a + b.
Proof. intros. unfold add. apply wrap_small. unfold in_range. lia. Qed.

Lemma sub_small a b : 0 <= b <= a -> a < modulus -> sub a b = a - b.
Proof. intros. unfold sub. apply wrap_small. unfold in_range. lia. Qed.


Lemma to_int64_small x : 0 <= x <= maxInt64 -> to_int64 x = x.
Proof. intros H. unfold to_int64. destruct (Z.leb_spec x maxInt64); lia. Qed.

End U64Facts.

Module HashFacts.
Import Hash.

Lemma is_zero_byte_spec c : is_zero_byte c = true <-> c = x00.
Proof.
  unfold is_zero_byte. split.
  - apply Byte.byte_dec_bl.
  - intros ->. reflexivity.
Qed.

Lemma crop_length b : (length (crop b) <= HashLength)%nat.
Proof.
  unfold crop. destruct (Nat.ltb_spec HashLength (length b)).
  - rewrite length_drop. lia.
  - lia.
Qed.

Lemma BytesToHash_length b : length (BytesToHash b) = HashLength.
Proof.
  unfold BytesToHash. rewrite length_app, length_replicate.
  pose proof (crop_length b). lia.
Qed.

Lemma BytesToHash_exact b : length b = HashLength -> BytesToHash b = b.
Proof.
  intros H. unfold BytesToHash, crop. rewrite H.
  rewrite Nat.ltb_irrefl, H, Nat.sub_diag. reflexivity.
Qed.

Lemma forallb_replicate n : forallb is_zero_byte (replicate n x00) = true.
Proof. induction n; simpl; auto. Qed.

Lemma all_zero_replicate (l : list byte) :
  forallb is_zero_byte l = true -> l = replicate (length l) x00.
Proof.
  induction l as [|c l IH]; simpl; [reflexivity|].
  intros H. apply andb_prop in H as [Hc Hl].
  apply is_zero_byte_spec in Hc. subst c. f_equal. auto.
Qed.

(** The hash is zero exactly when every byte kept by [crop] is zero. *)
Lemma BytesToHash_zero_iff b :
  BytesToHash b = zero <-> forallb is_zero_byte (crop b) = true.
Proof.
  unfold BytesToHash, zero. pose proof (crop_length b) as Hlen. split.
  - intros H.
    assert (Hall : forallb is_zero_byte
               (replicate (HashLength - length (crop b)) x00 ++ crop b) = true)
      by (rewrite H; apply forallb_replicate).
    rewrite forallb_app in Hall. apply andb_prop in Hall. tauto.
  - intros H. rewrite (all_zero_replicate _ H) at 2.
    rewrite <- replicate_add. f_equal. lia.
Qed.

End HashFacts.

Module DecFacts.
Import Dec.

Lemma precisionReuse_pos : 0 < precisionReuse.
Proof. vm_compute. reflexivity. Qed.

(** A product with a whole number needs no rounding. *)
Lemma chopRoundNonneg_whole k : chopRoundNonneg (k * precisionReuse) = k.
Proof.
  unfold chopRoundNonneg.
  rewrite Z.rem_mul by (pose proof precisionReuse_pos; lia).
  simpl. apply Z.quot_mul. pose proof precisionReuse_pos; lia.
Qed.

Lemma Mul_NewDec i m x : Mul (NewDec i) m = Ok x -> x = i * m.
Proof.
  unfold Mul. destruct (overflows _); [discriminate|].
  intros Hx. injection Hx as <-.
  unfold NewDec, chopPrecisionAndRound.
  replace (i * precisionReuse * m) with ((i * m) * precisionReuse) by ring.
  destruct (Z.ltb_spec (i * m * precisionReuse) 0).
  - replace (- (i * m * precisionReuse)) with ((- (i * m)) * precisionReuse) by ring.
    rewrite chopRoundNonneg_whole. apply Z.opp_involutive.
  - apply chopRoundNonneg_whole.
Qed.

Lemma MaxDec_max d1 d2 : MaxDec d1 d2 = Z.max d1 d2.
Proof. unfold MaxDec, LT. destruct (Z.ltb_spec d1 d2); lia. Qed.

Lemma TruncateInt_NewDec i : TruncateInt (NewDec i) = i.
Proof.
  unfold TruncateInt, NewDec. apply Z.quot_mul.
  pose proof precisionReuse_pos; lia.
Qed.

Lemma TruncateInt_nonneg d : 0 <= d -> TruncateInt d = d / precisionReuse.
Proof.
  intros H. unfold TruncateInt. apply Z.quot_div_nonneg; [exact H|].
  apply precisionReuse_pos.
Qed.

End DecFacts.

(* ===================================================================== *)
(** ** The block-hash resolver *)
(* ===================================================================== *)

Section ResolverFacts.

Context (HC : HashCollab).

Lemma SafeInt64_ok height : height <= U64.maxInt64 -> SafeInt64 height = Ok height.
Proof.
  intros H. unfold SafeInt64. destruct (Z.ltb_spec U64.maxInt64 height); [lia|reflexivity].
Qed.

Lemma SafeInt64_err height :
  U64.maxInt64 < height -> exists e, SafeInt64 height = Err e.
Proof.
  intros H. unfold SafeInt64. destruct (Z.ltb_spec U64.maxInt64 height); [eauto|lia].
Qed.

Lemma GetHashFn_conversion_error ctx height :
  U64.maxInt64 < height -> GetHashFn HC ctx height = Hash.zero.
Proof.
  intros H. unfold GetHashFn. destruct (SafeInt64_err height H) as [e ->]. reflexivity.
Qed.

Lemma GetHashFn_current_fixed ctx :
  cosmos.BlockHeight ctx <= U64.maxInt64 ->
  cosmos.HeaderHash ctx <> [] ->
  GetHashFn HC ctx (cosmos.BlockHeight ctx) = Hash.BytesToHash (cosmos.HeaderHash ctx).
Proof.
  intros Hh Hne. unfold GetHashFn. rewrite SafeInt64_ok by exact Hh.
  rewrite Z.eqb_refl. destruct (cosmos.HeaderHash ctx); [congruence|reflexivity].
Qed.

Lemma GetHashFn_current_recomputed ctx :
  cosmos.BlockHeight ctx <= U64.maxInt64 ->
  cosmos.HeaderHash ctx = [] ->
  GetHashFn HC ctx (cosmos.BlockHeight ctx) =
    match HeaderFromProto HC (cosmos.BlockHeader ctx) with
    | Ok header => Hash.BytesToHash (Header_Hash HC header)
    | _ => Hash.zero
    end.
Proof.
  intros Hh He. unfold GetHashFn. rewrite SafeInt64_ok by exact Hh.
  rewrite Z.eqb_refl, He. reflexivity.
Qed.

Lemma GetHashFn_past ctx height :
  height < cosmos.BlockHeight ctx ->
  height <= U64.maxInt64 ->
  GetHashFn HC ctx height =
    match GetHistoricalInfo HC ctx height with
    | None => Hash.zero
    | Some histInfo =>
        match HeaderFromProto HC (hi_Header histInfo) with
        | Ok header => Hash.BytesToHash (Header_Hash HC header)
        | _ => Hash.zero
        end
    end.
Proof.
  intros Hlt Hh. unfold GetHashFn. rewrite SafeInt64_ok by exact Hh.
  destruct (Z.eqb_spec (cosmos.BlockHeight ctx) height); [lia|].
  destruct (Z.ltb_spec height (cosmos.BlockHeight ctx)); [reflexivity|lia].
Qed.

Lemma GetHashFn_future ctx height :
  cosmos.BlockHeight ctx < height -> GetHashFn HC ctx height = Hash.zero.
Proof.
  intros Hgt. unfold GetHashFn. destruct (SafeInt64 height) as [h| |] eqn:E; try reflexivity.
  unfold SafeInt64 in E. destruct (U64.maxInt64 <? height); [discriminate|].
  injection E as <-.
  destruct (Z.eqb_spec (cosmos.BlockHeight ctx) height); [lia|].
  destruct (Z.ltb_spec height (cosmos.BlockHeight ctx)); [lia|reflexivity].
Qed.

End ResolverFacts.

(** C5 (as amended). For every requested height [height] (a [uint64]) the
    resolver returns:
    - the identifier made of the header hash bytes of the context when
      [height] is the current height and those bytes are set; it is the zero
      identifier exactly when the bytes it keeps (the last 32) are all zero,
      so a header hash with a non-zero byte there gives a non-zero
      identifier;
    - the identifier recomputed from the current header when [height] is the
      current height and no header hash is set, the zero identifier when the
      header does not decode;
    - for an earlier height, the zero identifier when there is no historical
      record, the identifier derived from the recorded header when there is
      one, the zero identifier when that header does not decode;
    - the zero identifier for a later height, and for a height that has no
      [int64]. *)
Theorem GetHashFn_resolves (HC : HashCollab) (ctx : cosmos.Context) (height : Z) :
  let current := cosmos.BlockHeight ctx in
  let derive (p : HeaderProto) :=
    match HeaderFromProto HC p with
    | Ok header => Hash.BytesToHash (Header_Hash HC header)
    | _ => Hash.zero
    end in
  (U64.maxInt64 < height -> GetHashFn HC ctx height = Hash.zero)
  /\ (height = current -> height <= U64.maxInt64 -> cosmos.HeaderHash ctx <> [] ->
        GetHashFn HC ctx height = Hash.BytesToHash (cosmos.HeaderHash ctx)
        /\ (GetHashFn HC ctx height = Hash.zero <->
            forallb Hash.is_zero_byte (Hash.crop (cosmos.HeaderHash ctx)) = true))
  /\ (height = current -> height <= U64.maxInt64 -> cosmos.HeaderHash ctx = [] ->
        GetHashFn HC ctx height = derive (cosmos.BlockHeader ctx))
  /\ (height < current -> height <= U64.maxInt64 ->
        (GetHistoricalInfo HC ctx height = None -> GetHashFn HC ctx height = Hash.zero)
        /\ (forall histInfo, GetHistoricalInfo HC ctx height = Some histInfo ->
              GetHashFn HC ctx height = derive (hi_Header histInfo)))
  /\ (current < height -> GetHashFn HC ctx height = Hash.zero)
  /\ (forall p e, HeaderFromProto HC p = Err e -> derive p = Hash.zero).
Proof.
  intros current derive. subst current.
  split; [apply GetHashFn_conversion_error|].
  split.
  { intros -> Hh Hne. rewrite GetHashFn_current_fixed by assumption.
    split; [reflexivity | apply HashFacts.BytesToHash_zero_iff]. }
  split.
  { intros -> Hh He. apply GetHashFn_current_recomputed; assumption. }
  split.
  { intros Hlt Hh. rewrite GetHashFn_past by assumption. split.
    - intros ->. reflexivity.
    - intros histInfo ->. reflexivity. }
  split; [apply GetHashFn_future|].
  intros p e He. unfold derive. rewrite He. reflexivity.
Qed.

(** C5, on the sample context at height 5: the header hash is set and the
    resolver returns its 32 bytes, a non-zero identifier. *)
Lemma GetHashFn_resolves_sample :
  GetHashFn Sample.hashCollab Sample.ctx 5 = Hash.BytesToHash (cosmos.HeaderHash Sample.ctx)
  /\ GetHashFn Sample.hashCollab Sample.ctx 5 <> Hash.zero.
Proof.
  pose proof (GetHashFn_resolves Sample.hashCollab Sample.ctx 5) as H.
  cbv zeta in H. destruct H as (_ & Hfixed & _).
  destruct Hfixed as [Heq Hzero];
    [reflexivity | unfold U64.maxInt64; simpl; lia | discriminate |].
  split; [exact Heq|].
  intros Hz. apply Hzero in Hz. vm_compute in Hz. discriminate.
Defined.

(** C5 as stated fails: a header hash that is set (32 bytes, all zero) at the
    current height gives the zero identifier. *)
Lemma GetHashFn_fixed_header_zero_identifier :
  cosmos.HeaderHash Sample.ctxZeroHash <> []
  /\ length (cosmos.HeaderHash Sample.ctxZeroHash) = 32%nat
  /\ GetHashFn Sample.hashCollab Sample.ctxZeroHash
       (cosmos.BlockHeight Sample.ctxZeroHash) = Hash.zero.
Proof.
  split; [discriminate|]. split; reflexivity.
Qed.

(* ===================================================================== *)
(** ** The message executor *)
(* ===================================================================== *)

Section ExecutorFacts.

Context (EC : ExecCollab).

(** What a successful return of [ApplyMessageWithConfig] went through. *)
Lemma ApplyMessageWithConfig_ok ctx msg tracer commit cfg txConfig ctx' res fr :
  ApplyMessageWithConfig EC ctx msg tracer commit cfg txConfig = (ctx', Ok (res, fr)) ->
  exists intrinsicGas stateDB preCreate ret vmLeftover vmErr gasUsed minimumGasUsed,
    GetEthIntrinsicGas EC ctx msg (cfg_ChainConfig cfg) (is_nil (To msg)) = Ok intrinsicGas
    /\ U64.wrap intrinsicGas <= GasLimit msg
    /\ execute EC (NewEVM EC ctx msg cfg tracer) (preparedStateDB EC ctx msg cfg txConfig)
         msg (U64.sub (GasLimit msg) (U64.wrap intrinsicGas))
       = (stateDB, preCreate, ret, vmLeftover, vmErr)
    /\ vmLeftover <= GasLimit msg
    /\ (if commit then states.Commit (CommitFailure EC stateDB ctx) stateDB ctx else (ctx, None))
       = (ctx', None)
    /\ Dec.Mul (Dec.NewDec (U64.to_int64 (GasLimit msg))) (GetMinGasMultiplier EC ctx')
       = Ok minimumGasUsed
    /\ Dec.Uint64 (Dec.TruncateInt
         (Dec.MaxDec minimumGasUsed
            (Dec.NewDec (U64.to_int64 (fr_gasAfterRefund fr))))) = Ok gasUsed
    /\ res = {| res_Hash := TxHash txConfig;
                res_Logs := NewLogsFromEth (states.Logs stateDB);
                res_Ret := ret;
                res_VmError := match vmErr with Some e => e | None => EmptyString end;
                res_GasUsed := gasUsed;
                res_CumulativeGasUsed := 0 |}
    /\ fr = {| fr_isLondon := IsLondon (cfg_ChainConfig cfg) (cosmos.BlockHeight ctx);
               fr_refundQuotient := quotientAt cfg ctx;
               fr_preCreate := preCreate;
               fr_stateDB := stateDB;
               fr_vmLeftoverGas := vmLeftover;
               fr_vmErr := vmErr;
               fr_gasBeforeRefund := U64.sub (GasLimit msg) vmLeftover;
               fr_rawRefund := states.GetRefund stateDB;
               fr_refund := GasToRefund (states.GetRefund stateDB)
                              (U64.sub (GasLimit msg) vmLeftover) (quotientAt cfg ctx);
               fr_leftoverAfterRefund :=
                 U64.add vmLeftover
                   (GasToRefund (states.GetRefund stateDB)
                      (U64.sub (GasLimit msg) vmLeftover) (quotientAt cfg ctx));
               fr_gasAfterRefund :=
                 U64.sub (U64.sub (GasLimit msg) vmLeftover)
                   (GasToRefund (states.GetRefund stateDB)
                      (U64.sub (GasLimit msg) vmLeftover) (quotientAt cfg ctx));
               fr_minimumGasUsed := minimumGasUsed;
               fr_leftoverGas := U64.sub (GasLimit msg) gasUsed |}.
Proof.
  unfold ApplyMessageWithConfig. intros H.
  destruct (negb (EnableCreate (cfg_Params cfg)) && is_nil (To msg)); [discriminate|].
  destruct (negb (EnableCall (cfg_Params cfg)) && negb (is_nil (To msg))); [discriminate|].
  destruct (GetEthIntrinsicGas EC ctx msg (cfg_ChainConfig cfg) (is_nil (To msg)))
    as [intrinsicGas| |] eqn:Hintr; try discriminate.
  destruct (Z.ltb_spec (GasLimit msg) (U64.wrap intrinsicGas)) as [|Hgas]; [discriminate|].
  fold (preparedStateDB EC ctx msg cfg txConfig) in H.
  destruct (execute EC (NewEVM EC ctx msg cfg tracer) (preparedStateDB EC ctx msg cfg txConfig)
              msg (U64.sub (GasLimit msg) (U64.wrap intrinsicGas)))
    as [[[[stateDB preCreate] ret] vmLeftover] vmErr] eqn:Hexec.
  destruct (Z.ltb_spec (GasLimit msg) vmLeftover) as [|Hleft]; [discriminate|].
  destruct (if commit then states.Commit (CommitFailure EC stateDB ctx) stateDB ctx else (ctx, None))
    as [ctx1 [e1|]] eqn:Hcommit; [discriminate|].
  destruct (Dec.Mul (Dec.NewDec (U64.to_int64 (GasLimit msg))) (GetMinGasMultiplier EC ctx1))
    as [minimumGasUsed| |] eqn:Hmul; try discriminate.
  match type of H with (if ?c then _ else _) = _ => destruct c; [discriminate|] end.
  match type of H with match ?u with _ => _ end = _ =>
    destruct u as [gasUsed| |] eqn:Hused; try discriminate end.
  injection H as <- <- <-.
  exists intrinsicGas, stateDB, preCreate, ret, vmLeftover, vmErr, gasUsed, minimumGasUsed.
  repeat split; try assumption; reflexivity.
Qed.

End ExecutorFacts.

Section ExecutorClaims.

Context (EC : ExecCollab).

Lemma execute_leftover_range evm db msg gas db' pre ret vmLeftover vmErr :
  execute EC evm db msg gas = (db', pre, ret, vmLeftover, vmErr) ->
  U64.in_range vmLeftover.
Proof.
  unfold execute. intros H. destruct (To msg).
  - destruct (evm_Call EC evm db (From msg) a (Data msg) gas (Value msg)) as [d r].
    injection H as _ _ _ <- _. apply U64Facts.wrap_range.
  - destruct (evm_Create EC evm (states.SetNonce db (From msg) (Nonce msg)) (From msg)
                (Data msg) gas (Value msg)) as [d r].
    injection H as _ _ _ <- _. apply U64Facts.wrap_range.
Qed.


Lemma GetRefund_range db : U64.in_range (states.GetRefund db).
Proof. apply U64Facts.wrap_range. Qed.

(** The refund never exceeds the gas used before it, and the two updates of
    line 366 and 367 do not wrap around. *)
Lemma refund_arithmetic gasLimit vmLeftover raw quotient :
  U64.in_range gasLimit -> U64.in_range vmLeftover -> vmLeftover <= gasLimit ->
  0 <= raw -> 0 < quotient ->
  let before := U64.sub gasLimit vmLeftover in
  let refund := GasToRefund raw before quotient in
  before = gasLimit - vmLeftover
  /\ 0 <= refund <= before / quotient
  /\ before / quotient <= before
  /\ U64.add vmLeftover refund = vmLeftover + refund
  /\ U64.sub before refund = before - refund.
Proof.
  intros Hg Hv Hle Hraw Hq before refund. unfold U64.in_range in Hg, Hv.
  assert (Hb : before = gasLimit - vmLeftover)
    by (apply U64Facts.sub_small; lia).
  assert (Hdiv : 0 <= before / quotient <= before).
  { split; [apply Z.div_pos; lia|]. apply Z.div_le_upper_bound; nia. }
  assert (Hr : 0 <= refund <= before / quotient) by (unfold refund, GasToRefund; lia).
  repeat split; try lia.
  - apply U64Facts.add_small; lia.
  - apply U64Facts.sub_small; lia.
Qed.

Lemma quotientAt_pos cfg ctx : 0 < quotientAt cfg ctx.
Proof.
  unfold quotientAt, RefundQuotientEIP3529, RefundQuotient.
  destruct (IsLondon _ _); lia.
Qed.

(** C8. If [EnableCreate] is false a contract creation (no recipient) is
    rejected with [ErrCreateDisabled], and if [EnableCall] is false a message
    with a recipient is rejected with [ErrCallDisabled]; in both cases the
    context comes back as it was given, whatever the collaborators are: no
    state database is opened and the virtual machine is not run. *)
Theorem governance_flags_reject ctx msg tracer commit cfg txConfig :
  (EnableCreate (cfg_Params cfg) = false -> To msg = None ->
     ApplyMessageWithConfig EC ctx msg tracer commit cfg txConfig
     = (ctx, Err (Wrap ErrCreateDisabled "failed to create new contract")))
  /\ (EnableCall (cfg_Params cfg) = false -> To msg <> None ->
     ApplyMessageWithConfig EC ctx msg tracer commit cfg txConfig
     = (ctx, Err (Wrap ErrCallDisabled "failed to call contract"))).
Proof.
  unfold ApplyMessageWithConfig. split.
  - intros -> ->. reflexivity.
  - intros -> Hto. destruct (To msg); [|congruence].
    simpl. rewrite andb_false_r. reflexivity.
Qed.


End ExecutorClaims.

(** C8 on the samples: a creation with [EnableCreate] off and a call with
    [EnableCall] off. *)
Lemma governance_flags_reject_sample :
  ApplyMessageWithConfig Sample.vmSuccess Sample.ctx (Sample.createMsg 100000) None true
    (Sample.evmConfigFlags false true) Sample.txConfig
  = (Sample.ctx, Err (Wrap ErrCreateDisabled "failed to create new contract"))
  /\ ApplyMessageWithConfig Sample.vmSuccess Sample.ctx (Sample.callMsg 100000) None true
       (Sample.evmConfigFlags true false) Sample.txConfig
     = (Sample.ctx, Err (Wrap ErrCallDisabled "failed to call contract")).
Proof.
  split.
  - apply (proj1 (governance_flags_reject Sample.vmSuccess Sample.ctx
                    (Sample.createMsg 100000) None true
                    (Sample.evmConfigFlags false true) Sample.txConfig)); reflexivity.
  - apply (proj2 (governance_flags_reject Sample.vmSuccess Sample.ctx
                    (Sample.callMsg 100000) None true
                    (Sample.evmConfigFlags true false) Sample.txConfig));
      [reflexivity | discriminate].
Defined.


Section MinimumGas.

Context (EC : ExecCollab).

Lemma Uint64_ok i u : Dec.Uint64 i = Ok u -> u = i /\ 0 <= i <= U64.max.
Proof.
  unfold Dec.Uint64. destruct (Z.leb_spec 0 i), (Z.leb_spec i U64.max); simpl;
    intros Hu; try discriminate.
  injection Hu as <-. lia.
Qed.

(** Truncating the larger of a decimal and a whole number: the larger of the
    truncated decimal and the whole number. *)
Lemma truncate_max_whole a whole :
  0 <= whole ->
  Dec.TruncateInt (Dec.MaxDec a (Dec.NewDec whole)) = Z.max (a / Dec.precisionReuse) whole.
Proof.
  intros Hw. pose proof DecFacts.precisionReuse_pos as HP.
  rewrite DecFacts.MaxDec_max. unfold Dec.NewDec.
  rewrite DecFacts.TruncateInt_nonneg by nia.
  assert (Hwhole : whole * Dec.precisionReuse / Dec.precisionReuse = whole)
    by (apply Z.div_mul; lia).
  destruct (Z.max_spec a (whole * Dec.precisionReuse)) as [[Hlt ->]|[Hge ->]].
  - rewrite Hwhole.
    assert (a / Dec.precisionReuse <= whole)
      by (rewrite <- Hwhole; apply Z.div_le_mono; lia).
    lia.
  - assert (whole <= a / Dec.precisionReuse)
      by (rewrite <- Hwhole; apply Z.div_le_mono; lia).
    lia.
Qed.

(** C4 (as amended). For a gas limit that fits an [int64], the gas used of
    the response is [max(gasLimit * minGasMultiplier, gasUsedAfterRefund)]
    truncated to an integer, that is the larger of the truncated product and
    the refund-adjusted gas used. It is at least the product truncated (the
    product itself is less than one unit above it) and it is the
    refund-adjusted gas used whenever that is at least the product. The
    leftover gas becomes [gasLimit - gasUsed] in [uint64], the plain
    difference when the gas used does not exceed the limit. *)
Theorem minimum_gas_charge_truncated ctx msg tracer commit cfg txConfig ctx' res fr :
  0 <= GasLimit msg <= U64.maxInt64 ->
  ApplyMessageWithConfig EC ctx msg tracer commit cfg txConfig = (ctx', Ok (res, fr)) ->
  let product := GasLimit msg * GetMinGasMultiplier EC ctx' in
  let floor := product / Dec.precisionReuse in
  fr_minimumGasUsed fr = product
  /\ res_GasUsed res
     = Dec.TruncateInt (Dec.MaxDec product (Dec.NewDec (fr_gasAfterRefund fr)))
  /\ res_GasUsed res = Z.max floor (fr_gasAfterRefund fr)
  /\ floor <= res_GasUsed res
  /\ product < Dec.NewDec (res_GasUsed res + 1)
  /\ (product <= Dec.NewDec (fr_gasAfterRefund fr) ->
      res_GasUsed res = fr_gasAfterRefund fr)
  /\ fr_leftoverGas fr = U64.sub (GasLimit msg) (res_GasUsed res)
  /\ (res_GasUsed res <= GasLimit msg ->
      fr_leftoverGas fr = GasLimit msg - res_GasUsed res).
Proof.
  intros Hlimit H product floor.
  destruct (ApplyMessageWithConfig_ok EC _ _ _ _ _ _ _ _ _ H)
    as (intrinsicGas & stateDB & preCreate & ret & vmLeftover & vmErr & gasUsed & minimum
        & _ & _ & Hexec & Hleft & _ & Hmul & Hused & -> & Hfr).
  assert (Hrange : U64.in_range (GasLimit msg))
    by (unfold U64.in_range, U64.modulus, U64.maxInt64 in *; lia).
  pose proof (execute_leftover_range _ _ _ _ _ _ _ _ _ _ Hexec) as Hv.
  pose proof (GetRefund_range stateDB) as Hraw.
  destruct (refund_arithmetic (GasLimit msg) vmLeftover (states.GetRefund stateDB)
              (quotientAt cfg ctx) Hrange Hv Hleft (proj1 Hraw) (quotientAt_pos cfg ctx))
    as (Hb & Hr & Hdiv & _ & Hsub).
  set (after := fr_gasAfterRefund fr) in *.
  assert (Hafter : 0 <= after <= GasLimit msg).
  { subst after. rewrite Hfr. simpl. rewrite Hsub. unfold U64.in_range in Hv. lia. }
  rewrite (U64Facts.to_int64_small (GasLimit msg)) in Hmul by lia.
  rewrite (U64Facts.to_int64_small after) in Hused by lia.
  apply DecFacts.Mul_NewDec in Hmul. fold product in Hmul. subst minimum.
  apply Uint64_ok in Hused as [Hused Hbound].
  pose proof (truncate_max_whole product after (proj1 Hafter)) as Htrunc.
  fold floor in Htrunc.
  assert (Hfloor : floor * Dec.precisionReuse <= product
                   < (floor + 1) * Dec.precisionReuse).
  { pose proof DecFacts.precisionReuse_pos as HP.
    pose proof (Z.div_mod product Dec.precisionReuse ltac:(lia)) as Hdm.
    pose proof (Z.mod_pos_bound product Dec.precisionReuse HP) as Hm.
    fold floor in Hdm. lia. }
  assert (Hleftover : fr_leftoverGas fr = U64.sub (GasLimit msg) gasUsed)
    by (rewrite Hfr; reflexivity).
  assert (Hmin : fr_minimumGasUsed fr = product).
  { rewrite Hfr. reflexivity. }
  simpl. repeat split.
  - exact Hmin.
  - exact Hused.
  - lia.
  - lia.
  - unfold Dec.NewDec. pose proof DecFacts.precisionReuse_pos. nia.
  - unfold Dec.NewDec. intros Hle.
    pose proof DecFacts.precisionReuse_pos.
    assert (floor <= after) by (apply Z.div_le_upper_bound; lia).
    lia.
  - exact Hleftover.
  - intros Hle. rewrite Hleftover. apply U64Facts.sub_small; [lia|apply Hrange].
Qed.

End MinimumGas.

(** C4 on the sample run: gas limit 100000, multiplier one half, 74400 gas
    used after the refund, which is above the floor of 50000. *)
Lemma minimum_gas_charge_truncated_sample :
  exists ctx' res fr,
    ApplyMessageWithConfig Sample.vmRevert Sample.ctx (Sample.createMsg 100000) None true
      (Sample.evmConfig (Some 0)) Sample.txConfig = (ctx', Ok (res, fr))
    /\ res_GasUsed res = Z.max (100000 * Sample.half / Dec.precisionReuse) (fr_gasAfterRefund fr)
    /\ res_GasUsed res = 74400.
Proof.
  destruct (ApplyMessageWithConfig Sample.vmRevert Sample.ctx (Sample.createMsg 100000) None
              true (Sample.evmConfig (Some 0)) Sample.txConfig)
    as [ctx' [[res fr]|e|s]] eqn:E;
    [|vm_compute in E; discriminate|vm_compute in E; discriminate].
  exists ctx', res, fr. split; [reflexivity|].
  assert (Hlimit : 0 <= GasLimit (Sample.createMsg 100000) <= U64.maxInt64)
    by (unfold U64.maxInt64; simpl; lia).
  destruct (minimum_gas_charge_truncated Sample.vmRevert _ _ _ _ _ _ _ _ _ Hlimit E)
    as (_ & _ & Hmax & _).
  split; [exact Hmax|].
  vm_compute in E. injection E as _ <- _. reflexivity.
Defined.

(** C4 as stated fails: with gas limit 50001 and multiplier one half the
    floor is 25000.5; a call that uses the intrinsic 21000 gas only is
    charged 25000, which is below 25000.5. *)
Lemma minimum_gas_charge_below_product :
  exists ctx' res fr,
    ApplyMessageWithConfig Sample.vmIdle Sample.ctx (Sample.callMsg 50001) None false
      (Sample.evmConfig None) Sample.txConfig = (ctx', Ok (res, fr))
    /\ fr_gasAfterRefund fr = 21000
    /\ res_GasUsed res = 25000
    /\ Dec.Mul (Dec.NewDec (GasLimit (Sample.callMsg 50001))) Sample.half
       = Ok (fr_minimumGasUsed fr)
    /\ Dec.NewDec (res_GasUsed res) < fr_minimumGasUsed fr.
Proof.
  destruct (ApplyMessageWithConfig Sample.vmIdle Sample.ctx (Sample.callMsg 50001) None
              false (Sample.evmConfig None) Sample.txConfig)
    as [ctx' [[res fr]|e|s]] eqn:E;
    [|vm_compute in E; discriminate|vm_compute in E; discriminate].
  exists ctx', res, fr. split; [reflexivity|].
  vm_compute in E. injection E as _ <- <-. 
  repeat split; vm_compute; reflexivity.
Qed.

Section RefundCap.

Context (EC : ExecCollab).

(** C3. In every execution that returns a response, the response and the
    locals come from one run of the virtual machine ([execute]), and the
    refund applied is [min(rawRefundCounter, gasUsedBeforeRefund / quotient)]
    of that run's refund counter and of the gas it used, hence at most
    [gasUsedBeforeRefund / quotient]; the quotient is the post-London one
    (EIP-3529), the larger divisor, when London is active at the block number
    of the context and the pre-London one otherwise. The refund is added to
    the leftover gas and taken off the gas used, neither wrapping around, and
    it is the gas used after the refund that the response charges: its
    [GasUsed] is computed from it, and for a gas limit that fits an [int64]
    it is the larger of it and the minimum charge, so at least the gas used
    before the refund less its share of [1 / quotient]; where the minimum
    charge does not bind, the response charges exactly the gas used after
    the refund and what is left of the gas limit is the machine's leftover
    plus the refund. *)
Theorem refund_capped_by_quotient ctx msg tracer commit cfg txConfig ctx' res fr :
  U64.in_range (GasLimit msg) ->
  ApplyMessageWithConfig EC ctx msg tracer commit cfg txConfig = (ctx', Ok (res, fr)) ->
  let quotient :=
    if IsLondon (cfg_ChainConfig cfg) (cosmos.BlockHeight ctx)
    then RefundQuotientEIP3529 else RefundQuotient in
  exists intrinsicGas stateDB preCreate vmLeftover vmErr minimumGasUsed,
    GetEthIntrinsicGas EC ctx msg (cfg_ChainConfig cfg) (is_nil (To msg)) = Ok intrinsicGas
    /\ execute EC (NewEVM EC ctx msg cfg tracer) (preparedStateDB EC ctx msg cfg txConfig) msg
         (U64.sub (GasLimit msg) (U64.wrap intrinsicGas))
       = (stateDB, preCreate, res_Ret res, vmLeftover, vmErr)
    /\ res_Logs res = NewLogsFromEth (states.Logs stateDB)
    /\ res_VmError res = match vmErr with Some e => e | None => EmptyString end
    /\ Dec.Mul (Dec.NewDec (U64.to_int64 (GasLimit msg))) (GetMinGasMultiplier EC ctx')
       = Ok minimumGasUsed
    /\ let rawRefundCounter := states.GetRefund stateDB in
       let gasUsedBeforeRefund := GasLimit msg - vmLeftover in
       let refund := Z.min rawRefundCounter (gasUsedBeforeRefund / quotient) in
       RefundQuotient < RefundQuotientEIP3529
       /\ 0 <= refund <= gasUsedBeforeRefund / quotient
       (* the locals *)
       /\ fr_stateDB fr = stateDB
       /\ fr_vmLeftoverGas fr = vmLeftover
       /\ fr_refundQuotient fr = quotient
       /\ fr_rawRefund fr = rawRefundCounter
       /\ fr_gasBeforeRefund fr = gasUsedBeforeRefund
       /\ fr_refund fr = refund
       /\ fr_leftoverAfterRefund fr = vmLeftover + refund
       /\ fr_gasAfterRefund fr = gasUsedBeforeRefund - refund
       (* the response *)
       /\ Dec.Uint64
            (Dec.TruncateInt
               (Dec.MaxDec minimumGasUsed
                  (Dec.NewDec (U64.to_int64 (gasUsedBeforeRefund - refund)))))
          = Ok (res_GasUsed res)
       /\ (GasLimit msg <= U64.maxInt64 ->
           res_GasUsed res
           = Z.max (GasLimit msg * GetMinGasMultiplier EC ctx' / Dec.precisionReuse)
               (gasUsedBeforeRefund - refund)
           /\ gasUsedBeforeRefund - gasUsedBeforeRefund / quotient <= res_GasUsed res
           /\ (GasLimit msg * GetMinGasMultiplier EC ctx' / Dec.precisionReuse
               <= gasUsedBeforeRefund - refund ->
               res_GasUsed res = gasUsedBeforeRefund - refund
               /\ GasLimit msg - res_GasUsed res = vmLeftover + refund)).
Proof.
  intros Hrange H quotient.
  destruct (ApplyMessageWithConfig_ok EC _ _ _ _ _ _ _ _ _ H)
    as (intrinsicGas & stateDB & preCreate & ret & vmLeftover & vmErr & gasUsed & minimum
        & Hintr & _ & Hexec & Hleft & _ & Hmul & Hused & -> & ->).
  fold (quotientAt cfg ctx) in quotient. subst quotient.
  pose proof (execute_leftover_range _ _ _ _ _ _ _ _ _ _ Hexec) as Hv.
  pose proof (GetRefund_range stateDB) as Hraw.
  destruct (refund_arithmetic (GasLimit msg) vmLeftover (states.GetRefund stateDB)
              (quotientAt cfg ctx) Hrange Hv Hleft (proj1 Hraw) (quotientAt_pos cfg ctx))
    as (Hb & Hr & Hdiv & Hadd & Hsub).
  cbn [fr_gasAfterRefund] in Hused. rewrite Hsub in Hused.
  unfold GasToRefund in Hr, Hadd, Hsub, Hused. rewrite Hb in Hr, Hdiv, Hadd, Hsub, Hused.
  exists intrinsicGas, stateDB, preCreate, vmLeftover, vmErr, minimum.
  split; [exact Hintr|]. split; [exact Hexec|]. split; [reflexivity|].
  split; [reflexivity|]. split; [exact Hmul|].
  cbn [fr_stateDB fr_vmLeftoverGas fr_refundQuotient fr_rawRefund fr_gasBeforeRefund
       fr_refund fr_leftoverAfterRefund fr_gasAfterRefund res_GasUsed].
  unfold GasToRefund. rewrite Hb.
  split; [reflexivity|]. split; [exact Hr|].
  split; [reflexivity|]. split; [reflexivity|]. split; [reflexivity|].
  split; [reflexivity|]. split; [reflexivity|]. split; [reflexivity|].
  split; [exact Hadd|]. split; [exact Hsub|]. split; [exact Hused|].
  intros Hmax.
  unfold U64.in_range in Hrange, Hv.
  set (used := GasLimit msg - vmLeftover) in *.
  set (refund := Z.min (states.GetRefund stateDB) (used / quotientAt cfg ctx)) in *.
  assert (Hafter : 0 <= used - refund <= GasLimit msg) by (unfold used in *; lia).
  rewrite (U64Facts.to_int64_small (GasLimit msg)) in Hmul by lia.
  rewrite (U64Facts.to_int64_small (used - refund)) in Hused by lia.
  apply DecFacts.Mul_NewDec in Hmul. subst minimum.
  apply Uint64_ok in Hused as [Hused _].
  rewrite truncate_max_whole in Hused by lia.
  split; [exact Hused|]. split; [lia|]. intros Hfloor. unfold used in *. lia.
Qed.

End RefundCap.

(** C3 on the sample run after London: the machine leaves 7000 of 100000
    gas and counts 30000 of refund; 93000 / 5 = 18600 are refunded, and the
    response charges 93000 - 18600 = 74400. *)
Lemma refund_capped_by_quotient_sample :
  exists ctx' res fr,
    ApplyMessageWithConfig Sample.vmRevert Sample.ctx (Sample.createMsg 100000) None true
      (Sample.evmConfig (Some 0)) Sample.txConfig = (ctx', Ok (res, fr))
    /\ fr_vmLeftoverGas fr = 7000
    /\ fr_rawRefund fr = 30000
    /\ fr_refund fr = 18600
    /\ fr_refund fr <= (100000 - 7000) / 5
    /\ res_GasUsed res = 74400.
Proof.
  destruct (ApplyMessageWithConfig Sample.vmRevert Sample.ctx (Sample.createMsg 100000) None
              true (Sample.evmConfig (Some 0)) Sample.txConfig)
    as [ctx' [[res fr]|e|s]] eqn:E;
    [|vm_compute in E; discriminate|vm_compute in E; discriminate].
  exists ctx', res, fr. split; [reflexivity|].
  assert (Hrange : U64.in_range (GasLimit (Sample.createMsg 100000)))
    by (unfold U64.in_range, U64.modulus; simpl; lia).
  destruct (refund_capped_by_quotient Sample.vmRevert _ _ _ _ _ _ _ _ _ Hrange E)
    as (intrinsicGas & stateDB & preCreate & vmLeftover & vmErr & minimum
        & _ & _ & _ & _ & _ & _ & Hcap & Hdb & Hleft & _ & Hraw & _ & Hrefund & _ & _ & _ & Hres).
  assert (Hl : fr_vmLeftoverGas fr = 7000)
    by (vm_compute in E; injection E as _ _ <-; reflexivity).
  assert (Hc : fr_rawRefund fr = 30000)
    by (vm_compute in E; injection E as _ _ <-; reflexivity).
  rewrite Hl in Hleft. subst vmLeftover. rewrite Hc in Hraw.
  rewrite <- Hraw in Hrefund, Hres, Hcap. cbv zeta in Hrefund, Hres, Hcap.
  split; [exact Hl|]. split; [exact Hc|].
  split; [rewrite Hrefund; reflexivity|].
  split; [rewrite Hrefund; exact (proj2 Hcap)|].
  destruct Hres as [Hused _]; [unfold U64.maxInt64; simpl; lia|].
  rewrite Hused. vm_compute. reflexivity.
Defined.

(* ===================================================================== *)
(** ** The transaction applier *)
(* ===================================================================== *)

Section ApplierFacts.

Context (AC : ApplyCollab) (k : Keeper).

(** What a successful return of [ApplyTransaction] went through. *)
Lemma ApplyTransaction_ok ctx tx ctx' res ap :
  ApplyTransaction AC k ctx tx = (ctx', Ok (res, ap)) ->
  exists evmConfig executed bloom l ctx5,
    let txConfig := k_TxConfig AC ctx (tx_Hash tx) (tx_Type tx) in
    let msg := ap_msg ap in
    let cumulative := cumulativeGas (cosmos.BlockGasMeter ctx) (res_GasUsed executed) in
    k_EVMConfig AC ctx (hp_ProposerAddress (cosmos.BlockHeader ctx)) (eip155ChainID k)
      = Ok evmConfig
    /\ TransactionToMessage AC tx
         (MakeSigner AC (cfg_ChainConfig evmConfig) (cosmos.BlockHeight ctx)
            (U64.wrap (cosmos.BlockTime ctx)))
         (cfg_BaseFee evmConfig) = Ok msg
    /\ ApplyMessageWithConfig (ac_Exec AC) (cosmos.CacheContext ctx) msg None true
         evmConfig txConfig = (ap_snapshot ap, Ok (executed, ap_frame ap))
    /\ receiptBloom AC ctx (LogsToEthereum (res_Logs executed)) = Ok bloom
    /\ ap_txConfig ap = txConfig
    /\ ap_committed ap = negb (Failed executed)
    /\ ap_receipt ap =
         {| rc_Type := tx_Type tx;
            rc_Status := if ap_committed ap then ReceiptStatusSuccessful
                         else ReceiptStatusFailed;
            rc_CumulativeGasUsed := cumulative;
            rc_Bloom := bloom;
            rc_Logs := LogsToEthereum (res_Logs executed);
            rc_TxHash := TxHash txConfig;
            rc_ContractAddress :=
              match To msg with
              | None => CreateAddress AC (From msg) (Nonce msg)
              | Some _ => 0
              end;
            rc_GasUsed := res_GasUsed executed;
            rc_BlockHash := BlockHash txConfig;
            rc_BlockNumber := cosmos.BlockHeight ctx;
            rc_TransactionIndex := TxIndex txConfig |}
    /\ ap_base ap = settle ctx (ap_snapshot ap) (ap_committed ap)
    /\ ap_refunded ap = U64.sub (GasLimit msg) (res_GasUsed executed)
    /\ RefundGas AC (ledger (cosmos.Store (ap_base ap))) msg (ap_refunded ap)
         (EvmDenom (cfg_Params evmConfig)) = Ok l
    /\ transient.AddTransientGasUsed
         (recordTransients (cosmos.WithLedger (ap_base ap) l) (ap_receipt ap) txConfig)
         (res_GasUsed executed) = Ok (ctx5, ap_totalGasUsed ap)
    /\ ctx' = transient.ResetGasMeterAndConsumeGas ctx5 (ap_totalGasUsed ap)
    /\ res =
         {| res_Hash := res_Hash executed;
            res_Logs := if ap_committed ap
                        then NewLogsFromEth (LogsToEthereum (res_Logs executed))
                        else res_Logs executed;
            res_Ret := res_Ret executed;
            res_VmError := res_VmError executed;
            res_GasUsed := res_GasUsed executed;
            res_CumulativeGasUsed := cumulative |}.
Proof.
  unfold ApplyTransaction. intros H.
  destruct (k_EVMConfig AC ctx (hp_ProposerAddress (cosmos.BlockHeader ctx)) (eip155ChainID k))
    as [evmConfig| |] eqn:Hcfg; try discriminate.
  destruct (TransactionToMessage AC tx _ (cfg_BaseFee evmConfig))
    as [msg| |] eqn:Hmsg; try discriminate.
  destruct (ApplyMessageWithConfig (ac_Exec AC) (cosmos.CacheContext ctx) msg None true
              evmConfig (k_TxConfig AC ctx (tx_Hash tx) (tx_Type tx)))
    as [tmpCtx [[executed frame]| |]] eqn:Hexec; try discriminate.
  fold (receiptBloom AC ctx (LogsToEthereum (res_Logs executed))) in H.
  destruct (receiptBloom AC ctx (LogsToEthereum (res_Logs executed)))
    as [bloom| |] eqn:Hbloom; try discriminate.
  unfold Failed in H. simpl in H. fold (Failed executed) in H.
  destruct (Failed executed) eqn:Hfailed; simpl in H.
  - destruct (RefundGas AC (ledger (cosmos.Store ctx)) msg _ _) as [l| |] eqn:Hrefund;
      try discriminate.
    match type of H with match ?a with _ => _ end = _ =>
      destruct a as [[ctx5 total]| |] eqn:Hadd; try discriminate end.
    injection H as <- <- <-.
    exists evmConfig, executed, bloom, l, ctx5. simpl. unfold Failed. simpl.
    fold (Failed executed). rewrite Hfailed. simpl.
    repeat split; try assumption; reflexivity.
  - destruct (RefundGas AC _ msg _ _) as [l| |] eqn:Hrefund; try discriminate.
    match type of H with match ?a with _ => _ end = _ =>
      destruct a as [[ctx5 total]| |] eqn:Hadd; try discriminate end.
    injection H as <- <- <-.
    exists evmConfig, executed, bloom, l, ctx5. simpl. unfold Failed. simpl.
    fold (Failed executed). rewrite Hfailed. simpl.
    repeat split; try assumption; reflexivity.
Qed.

End ApplierFacts.

Section ApplierClaims.

Context (AC : ApplyCollab) (k : Keeper).

(** The executor writes to the ledger only: the transient values of the
    context it leaves are those of the context it was given. *)
Lemma ApplyMessageWithConfig_transient (EC : ExecCollab) ctx msg tracer commit cfg txConfig :
  transient (cosmos.Store (fst (ApplyMessageWithConfig EC ctx msg tracer commit cfg txConfig)))
  = transient (cosmos.Store ctx).
Proof.
  unfold ApplyMessageWithConfig.
  repeat case_match; simpl; try reflexivity;
    repeat match goal with
    | H : states.Commit _ _ _ = _ |- _ =>
        unfold states.Commit in H; repeat case_match; simplify_eq
    | H : (_, _) = (_, _) |- _ => simplify_eq
    end; reflexivity.
Qed.

Lemma settle_transient ctx tmpCtx committed :
  transient (cosmos.Store tmpCtx) = transient (cosmos.Store ctx) ->
  transient (cosmos.Store (settle ctx tmpCtx committed)) = transient (cosmos.Store ctx).
Proof. intros Hs. destruct committed; simpl; [exact Hs|reflexivity]. Qed.

Lemma recordTransients_ledger ctx receipt txConfig :
  ledger (cosmos.Store (recordTransients ctx receipt txConfig)) = ledger (cosmos.Store ctx).
Proof. unfold recordTransients. case_match; reflexivity. Qed.

Lemma recordTransients_gas ctx receipt txConfig :
  tr_GasUsed (transient (cosmos.Store (recordTransients ctx receipt txConfig)))
  = tr_GasUsed (transient (cosmos.Store ctx)).
Proof. unfold recordTransients. case_match; reflexivity. Qed.

Lemma AddTransientGasUsed_ok ctx gasUsed ctx5 total :
  transient.AddTransientGasUsed ctx gasUsed = Ok (ctx5, total) ->
  total = U64.add (tr_GasUsed (transient (cosmos.Store ctx))) gasUsed
  /\ gasUsed <= total
  /\ ctx5 = transient.SetTransientGasUsed ctx total.
Proof.
  unfold transient.AddTransientGasUsed, transient.GetTransientGasUsed.
  destruct (Z.ltb_spec (U64.add (tr_GasUsed (transient (cosmos.Store ctx))) gasUsed) gasUsed);
    intros Hadd; [discriminate|]. injection Hadd as <- <-. auto.
Qed.

Lemma Failed_spec res : Failed res = false <-> res_VmError res = EmptyString.
Proof.
  unfold Failed. destruct (res_VmError res); simpl; split; congruence.
Qed.

Lemma ApplyMessageWithConfig_response (EC : ExecCollab) ctx msg tracer commit cfg txConfig
    ctx' res fr :
  ApplyMessageWithConfig EC ctx msg tracer commit cfg txConfig = (ctx', Ok (res, fr)) ->
  0 <= res_GasUsed res <= U64.max
  /\ res_VmError res = match fr_vmErr fr with Some e => e | None => EmptyString end.
Proof.
  intros H.
  destruct (ApplyMessageWithConfig_ok EC _ _ _ _ _ _ _ _ _ H)
    as (intrinsicGas & stateDB & preCreate & ret & vmLeftover & vmErr & gasUsed & minimum
        & _ & _ & _ & _ & _ & _ & Hused & -> & ->).
  simpl. apply Uint64_ok in Hused. split; [lia|reflexivity].
Qed.

(** The store the applier leaves: the refunded ledger, and the transient
    values of [recordTransients] with the gas added. *)
Lemma ApplyTransaction_final_store base l receipt txConfig gasUsed ctx5 total :
  transient.AddTransientGasUsed
    (recordTransients (cosmos.WithLedger base l) receipt txConfig) gasUsed = Ok (ctx5, total) ->
  let ctx' := transient.ResetGasMeterAndConsumeGas ctx5 total in
  ledger (cosmos.Store ctx') = l
  /\ total = U64.add (tr_GasUsed (transient (cosmos.Store base))) gasUsed
  /\ tr_GasUsed (transient (cosmos.Store ctx')) = total
  /\ gm_Consumed (cosmos.TxGasMeter ctx') = total
  /\ tr_TxIndex (transient (cosmos.Store ctx')) = U64.add (U64.wrap (TxIndex txConfig)) 1
  /\ (rc_Logs receipt = [] ->
      tr_Bloom (transient (cosmos.Store ctx')) = tr_Bloom (transient (cosmos.Store base))
      /\ tr_LogSize (transient (cosmos.Store ctx')) = tr_LogSize (transient (cosmos.Store base)))
  /\ (rc_Logs receipt <> [] ->
      tr_Bloom (transient (cosmos.Store ctx')) = rc_Bloom receipt
      /\ tr_LogSize (transient (cosmos.Store ctx'))
         = U64.add (U64.wrap (LogIndex txConfig))
             (U64.wrap (Z.of_nat (length (rc_Logs receipt))))).
Proof.
  intros Hadd ctx'. apply AddTransientGasUsed_ok in Hadd as (Htotal & _ & ->).
  rewrite recordTransients_gas in Htotal. simpl in Htotal.
  subst ctx'. unfold recordTransients. simpl.
  destruct (rc_Logs receipt) as [|lg logs]; simpl;
    (repeat split; try assumption; try reflexivity; intros; congruence).
Qed.

(** C1. When [ApplyTransaction] returns a response, the execution ran on a
    branch of the context (the snapshot) and exactly one of two things was
    done with it, by the flag [ap_committed]: when the response has not
    failed (the VM reported no error) the receipt says success and the whole
    store of the snapshot became the store of the parent; when it has failed
    (the VM reported an error) the receipt says failure and the parent is the
    context as it was given, nothing of the snapshot in it. In both cases the
    sender is refunded [GasLimit - GasUsed] on that store and the gas used is
    added to the transient total: the gas is charged. *)
Theorem commit_or_discard ctx tx ctx' res ap :
  ApplyTransaction AC k ctx tx = (ctx', Ok (res, ap)) ->
  exists evmConfig executed,
    ApplyMessageWithConfig (ac_Exec AC) (cosmos.CacheContext ctx) (ap_msg ap) None true
      evmConfig (ap_txConfig ap) = (ap_snapshot ap, Ok (executed, ap_frame ap))
    /\ ap_committed ap = negb (Failed res)
    /\ (fr_vmErr (ap_frame ap) = None -> ap_committed ap = true)
    /\ (forall e, fr_vmErr (ap_frame ap) = Some e -> e <> EmptyString ->
        ap_committed ap = false)
    /\ (ap_committed ap = true ->
        rc_Status (ap_receipt ap) = ReceiptStatusSuccessful
        /\ cosmos.Store (ap_base ap) = cosmos.Store (ap_snapshot ap))
    /\ (ap_committed ap = false ->
        rc_Status (ap_receipt ap) = ReceiptStatusFailed
        /\ ap_base ap = ctx)
    /\ RefundGas AC (ledger (cosmos.Store (ap_base ap))) (ap_msg ap)
         (U64.sub (GasLimit (ap_msg ap)) (res_GasUsed res))
         (EvmDenom (cfg_Params evmConfig))
       = Ok (ledger (cosmos.Store ctx'))
    /\ tr_GasUsed (transient (cosmos.Store ctx'))
       = U64.add (tr_GasUsed (transient (cosmos.Store ctx))) (res_GasUsed res).
Proof.
  intros H.
  destruct (ApplyTransaction_ok AC k _ _ _ _ _ H)
    as (evmConfig & executed & bloom & l & ctx5 & _ & _ & Hexec & _ & Htxc & Hcommitted
        & Hreceipt & Hbase & Hrefunded & Hrefund & Hadd & -> & ->).
  cbv zeta in *. rewrite <- Htxc in Hexec, Hadd.
  destruct (ApplyTransaction_final_store _ _ _ _ _ _ _ Hadd)
    as (Hledger & Htotal & Hgas & _).
  destruct (ApplyMessageWithConfig_response _ _ _ _ _ _ _ _ _ _ Hexec) as [_ Herr].
  pose proof (ApplyMessageWithConfig_transient (ac_Exec AC) (cosmos.CacheContext ctx)
                (ap_msg ap) None true evmConfig (ap_txConfig ap)) as Htr.
  rewrite Hexec in Htr. simpl in Htr.
  exists evmConfig, executed. cbn [res_GasUsed].
  split; [exact Hexec|]. split; [exact Hcommitted|].
  split.
  { intros Hnone. rewrite Hcommitted. rewrite Hnone in Herr.
    apply Failed_spec in Herr. rewrite Herr. reflexivity. }
  split.
  { intros e Hsome Hne. rewrite Hcommitted. rewrite Hsome in Herr.
    destruct (Failed executed) eqn:Hf; [reflexivity|].
    apply Failed_spec in Hf. congruence. }
  split.
  { intros Hc. rewrite Hreceipt, Hbase, Hc. simpl. split; reflexivity. }
  split.
  { intros Hc. rewrite Hreceipt, Hbase, Hc. simpl. split; reflexivity. }
  split.
  { rewrite Hledger, <- Hrefunded. exact Hrefund. }
  rewrite Hgas, Htotal, Hbase. rewrite settle_transient by exact Htr. reflexivity.
Qed.


(** C10. The bloom stored in the receipt of a transaction with a non-empty
    log list is the transient block bloom OR-ed with the bloom of these logs,
    so every bit set by an earlier transaction of the block is set in it;
    with an empty log list it is the zero bloom. *)
Theorem receipt_bloom_accumulated ctx tx ctx' res ap :
  ApplyTransaction AC k ctx tx = (ctx', Ok (res, ap)) ->
  let logs := rc_Logs (ap_receipt ap) in
  let blockBloom := tr_Bloom (transient (cosmos.Store ctx)) in
  (logs <> [] ->
     rc_Bloom (ap_receipt ap) = N.lor blockBloom (LogsBloom AC logs)
     /\ forall i, N.testbit blockBloom i = true ->
                  N.testbit (rc_Bloom (ap_receipt ap)) i = true)
  /\ (logs = [] -> rc_Bloom (ap_receipt ap) = 0%N).
Proof.
  intros H logs blockBloom.
  destruct (ApplyTransaction_ok AC k _ _ _ _ _ H)
    as (evmConfig & executed & bloom & l & ctx5 & _ & _ & _ & Hbloom & _ & _
        & Hreceipt & _).
  cbv zeta in *. subst logs. rewrite Hreceipt. cbn [rc_Logs rc_Bloom].
  unfold receiptBloom, transient.GetBlockBloomTransient in Hbloom.
  fold blockBloom in Hbloom.
  destruct (LogsToEthereum (res_Logs executed)) as [|lg logs] eqn:Hlogs.
  - simpl in Hbloom. injection Hbloom as <-. split; [congruence|reflexivity].
  - cbn [length Nat.ltb Nat.leb] in Hbloom. unfold BytesToBloom in Hbloom.
    destruct (N.ltb _ _); [|discriminate]. injection Hbloom as <-.
    split; [|congruence]. intros _. split; [reflexivity|].
    intros i Hi. rewrite N.lor_spec, Hi. reflexivity.
Qed.



End ApplierClaims.

(** C1 on a call that the sample machine reverts: nothing is committed, the
    parent is the context as given, 50000 gas is charged. *)
Lemma commit_or_discard_sample :
  exists ctx' res ap,
    ApplyTransaction Sample.applyRevert Sample.keeper Sample.ctx Sample.callTx
    = (ctx', Ok (res, ap))
    /\ ap_committed ap = false
    /\ ap_base ap = Sample.ctx
    /\ res_GasUsed res = 50000
    /\ tr_GasUsed (transient (cosmos.Store ctx')) = 50000.
Proof.
  destruct (ApplyTransaction Sample.applyRevert Sample.keeper Sample.ctx Sample.callTx)
    as [ctx' [[res ap]|e|s]] eqn:E;
    [|vm_compute in E; discriminate|vm_compute in E; discriminate].
  exists ctx', res, ap. split; [reflexivity|].
  destruct (commit_or_discard Sample.applyRevert Sample.keeper Sample.ctx Sample.callTx
              ctx' res ap E)
    as (evmConfig & executed & _ & Hc & _ & _ & _ & Hdiscard & _ & Hgas).
  assert (Hres : res_VmError res = "execution reverted" /\ res_GasUsed res = 50000).
  { vm_compute in E. injection E as _ <- _. split; reflexivity. }
  destruct Hres as [Herr Hused].
  assert (Hfalse : ap_committed ap = false).
  { rewrite Hc. unfold Failed. rewrite Herr. reflexivity. }
  split; [exact Hfalse|]. split; [exact (proj2 (Hdiscard Hfalse))|].
  split; [exact Hused|]. rewrite Hgas, Hused. reflexivity.
Defined.


(** C10 on the successful call with one log: block bloom 8, log bloom 3,
    receipt bloom 11. *)
Lemma receipt_bloom_accumulated_sample :
  exists ctx' res ap,
    ApplyTransaction Sample.applySuccess Sample.keeper Sample.ctx Sample.callTx
    = (ctx', Ok (res, ap))
    /\ rc_Logs (ap_receipt ap) = [Sample.sampleLog]
    /\ rc_Bloom (ap_receipt ap) = 11%N.
Proof.
  destruct (ApplyTransaction Sample.applySuccess Sample.keeper Sample.ctx Sample.callTx)
    as [ctx' [[res ap]|e|s]] eqn:E;
    [|vm_compute in E; discriminate|vm_compute in E; discriminate].
  exists ctx', res, ap. split; [reflexivity|].
  destruct (receipt_bloom_accumulated Sample.applySuccess Sample.keeper Sample.ctx
              Sample.callTx ctx' res ap E) as [Hlor _].
  assert (Hlogs : rc_Logs (ap_receipt ap) = [Sample.sampleLog]).
  { vm_compute in E. injection E as _ _ <-. reflexivity. }
  split; [exact Hlogs|].
  destruct Hlor as [Hb _]; [rewrite Hlogs; discriminate|].
  rewrite Hb, Hlogs. reflexivity.
Defined.



(* ===================================================================== *)
(** ** The signature verification stage *)
(* ===================================================================== *)

Section SigVerificationFacts.

Context (AK : AnteCollab).

Lemma verifies_WithAspectContext ctx a msg :
  verifies AK (cosmos.WithAspectContext ctx a) msg = verifies AK ctx msg.
Proof. destruct msg; reflexivity. Qed.

Lemma senderSet_WithAspectContext ctx a before after :
  senderSet AK (cosmos.WithAspectContext ctx a) before after -> senderSet AK ctx before after.
Proof. intros (m & sender & sig & H). exists m, sender, sig. exact H. Qed.

(** The loop stops with [Ok] exactly on lists whose messages all verify;
    it then has set every sender; otherwise it stops with an error. The
    store of the context it leaves is the store it was given. *)
Lemma verifyMsgs_spec msgs : forall ctx msgs' ctx' r,
  verifyMsgs AK ctx msgs = (msgs', ctx', r) ->
  cosmos.Store ctx' = cosmos.Store ctx
  /\ (r = Ok tt <-> forallb (verifies AK ctx) msgs = true)
  /\ (r = Ok tt -> Forall2 (senderSet AK ctx) msgs msgs')
  /\ (r <> Ok tt -> exists e, r = Err e).
Proof.
  induction msgs as [|msg rest IH]; intros ctx msgs' ctx' r H; simpl in H.
  - injection H as <- <- <-. repeat split; auto. congruence.
  - destruct msg as [m|name].
    + simpl. destruct (VerifySig AK (cosmos.WithAspectContext ctx (aspectContextOf m))
                         (met_Transaction m)) as [err|[sender sig]] eqn:Hsig.
      * injection H as <- <- <-. repeat split; try congruence; try discriminate.
        intros _. eauto.
      * destruct (verifyMsgs AK (cosmos.WithAspectContext ctx (aspectContextOf m)) rest)
          as [[rest' ctx1] r1] eqn:Hrest.
        injection H as <- <- <-.
        destruct (IH _ _ _ _ Hrest) as (Hstore & Hiff & Hset & Herr).
        split; [rewrite Hstore; reflexivity|].
        split.
        { exact Hiff. }
        split; [|exact Herr].
        intros Hr. constructor.
        -- exists m, sender, sig. auto.
        -- eapply Forall2_impl; [exact (Hset Hr)|].
           intros x y. apply senderSet_WithAspectContext.
    + injection H as <- <- <-. simpl. repeat split; try congruence; try discriminate.
      intros _. eauto.
Qed.

(** What [senderSet] means for the fields of the message: the [From] of
    the message after holds the recovered sender, the rest is as before. *)
Lemma senderSet_From ctx before after :
  senderSet AK ctx before after ->
  exists m m' sender sig,
    before = EthereumTxMsg m /\ after = EthereumTxMsg m'
    /\ VerifySig AK (cosmos.WithAspectContext ctx (aspectContextOf m)) (met_Transaction m)
       = inr (sender, sig)
    /\ met_From m' = Some sender
    /\ met_Transaction m' = met_Transaction m
    /\ met_CallTransaction m' = met_CallTransaction m.
Proof.
  intros (m & sender & sig & -> & Hsig & ->).
  exists m, (SetFrom m sender), sender, sig.
  split; [reflexivity|]. split; [reflexivity|]. split; [exact Hsig|].
  split; [reflexivity|]. split; reflexivity.
Qed.

(** The context the loop leaves differs from the one given in the aspect
    context only. *)
Lemma verifyMsgs_context msgs : forall ctx msgs' ctx' r,
  verifyMsgs AK ctx msgs = (msgs', ctx', r) ->
  forall a, cosmos.WithAspectContext ctx' a = cosmos.WithAspectContext ctx a.
Proof.
  induction msgs as [|msg rest IH]; intros ctx msgs' ctx' r H a; simpl in H.
  - injection H as _ <- _. reflexivity.
  - destruct msg as [m|name]; [|injection H as _ <- _; reflexivity].
    destruct (VerifySig AK _ _) as [err|[sender sig]];
      [injection H as _ <- _; reflexivity|].
    destruct (verifyMsgs AK _ rest) as [[rest' ctx1] r1] eqn:Hrest.
    injection H as _ <- _. rewrite (IH _ _ _ _ Hrest a). reflexivity.
Qed.

(** C7. The stage hands the transaction to the next handler (accepts it)
    if and only if every message is an Ethereum message on which the sender
    recovery succeeds; this holds in every context and for every [simulate],
    re-validation included, as the loop has no branch on them. On acceptance
    every message comes out with its [From] field ([met_From]) holding the
    sender the recovery gave for it, its signed envelope untouched; otherwise
    the stage returns the error it stopped on and does not run the next
    handler. In both cases the context it leaves differs from the one given
    in the aspect context only; in particular its store is the store it was
    given. *)
Theorem signature_stage_accepts_iff ctx tx simulate next msgs' ctx' r :
  verifyMsgs AK ctx (GetMsgs tx) = (msgs', ctx', r) ->
  (r = Ok tt <-> forallb (verifies AK ctx) (GetMsgs tx) = true)
  /\ (r = Ok tt ->
      AnteHandle AK ctx tx simulate next
      = ({| GetMsgs := msgs' |}, next ctx' {| GetMsgs := msgs' |} simulate)
      /\ Forall2 (senderSet AK ctx) (GetMsgs tx) msgs'
      /\ Forall2
           (fun before after =>
              exists m m' sender sig,
                before = EthereumTxMsg m /\ after = EthereumTxMsg m'
                /\ VerifySig AK (cosmos.WithAspectContext ctx (aspectContextOf m))
                     (met_Transaction m) = inr (sender, sig)
                /\ met_From m' = Some sender
                /\ met_Transaction m' = met_Transaction m
                /\ met_CallTransaction m' = met_CallTransaction m)
           (GetMsgs tx) msgs')
  /\ (r <> Ok tt ->
      exists e, r = Err e
                /\ AnteHandle AK ctx tx simulate next = ({| GetMsgs := msgs' |}, (ctx', Err e)))
  /\ cosmos.Store ctx' = cosmos.Store ctx
  /\ (forall a, cosmos.WithAspectContext ctx' a = cosmos.WithAspectContext ctx a).
Proof.
  intros H. destruct (verifyMsgs_spec _ _ _ _ _ H) as (Hstore & Hiff & Hset & Herr).
  split; [exact Hiff|].
  split; [|split; [|split; [exact Hstore|exact (verifyMsgs_context _ _ _ _ _ H)]]].
  - intros Hr. split; [|split; [exact (Hset Hr)|]].
    + unfold AnteHandle. rewrite H, Hr. reflexivity.
    + eapply Forall2_impl; [exact (Hset Hr)|]. intros before after. apply senderSet_From.
  - intros Hr. destruct (Herr Hr) as [e ->]. exists e. split; [reflexivity|].
    unfold AnteHandle. rewrite H. reflexivity.
Qed.

End SigVerificationFacts.

(** C7 on the samples, in a re-validation context: two well-signed messages
    with no sender yet are accepted and come out with sender 100 in [From];
    a badly signed second message is rejected with the error of the
    recovery. *)
Lemma signature_stage_accepts_iff_sample :
  cosmos.IsReCheckTx Sample.ctx = true
  /\ Forall (fun msg => exists m, msg = EthereumTxMsg m /\ met_From m = None)
       (GetMsgs Sample.goodTx)
  /\ (exists msgs' ctx',
        verifyMsgs Sample.anteCollab Sample.ctx (GetMsgs Sample.goodTx) = (msgs', ctx', Ok tt)
        /\ Forall2 (senderSet Sample.anteCollab Sample.ctx) (GetMsgs Sample.goodTx) msgs'
        /\ Forall (fun msg => exists m', msg = EthereumTxMsg m' /\ met_From m' = Some 100) msgs'
        /\ cosmos.Store ctx' = cosmos.Store Sample.ctx)
  /\ (exists msgs' ctx',
        verifyMsgs Sample.anteCollab Sample.ctx (GetMsgs Sample.badTx)
        = (msgs', ctx', Err (ErrCollaborator "invalid signature"))
        /\ forallb (verifies Sample.anteCollab Sample.ctx) (GetMsgs Sample.badTx) = false).
Proof.
  split; [reflexivity|]. split.
  { repeat constructor; eexists; split; reflexivity. }
  split.
  - destruct (verifyMsgs Sample.anteCollab Sample.ctx (GetMsgs Sample.goodTx))
      as [[msgs' ctx'] r] eqn:E.
    destruct (signature_stage_accepts_iff Sample.anteCollab Sample.ctx Sample.goodTx
                false Sample.nextOk msgs' ctx' r E) as (Hiff & Hacc & _ & Hstore & _).
    assert (Hr : r = Ok tt) by (apply Hiff; reflexivity).
    subst r. exists msgs', ctx'. split; [reflexivity|].
    destruct (Hacc eq_refl) as (_ & Hset & Hfrom).
    split; [exact Hset|]. split; [|exact Hstore].
    clear Hset Hacc Hiff Hstore E.
    induction Hfrom as [|before after rest rest' (m & m' & sender & sig & -> & -> & Hsig & Hf & _) _ IH];
      constructor; [|exact IH].
    exists m'. split; [reflexivity|]. rewrite Hf. f_equal.
    assert (Hs : VerifySig Sample.anteCollab
                   (cosmos.WithAspectContext Sample.ctx (aspectContextOf m)) (met_Transaction m)
                 = inr (sender, sig) -> sender = 100); [|exact (Hs Hsig)].
    unfold Sample.anteCollab, VerifySig. intros Hv. repeat case_match; congruence.
  - destruct (verifyMsgs Sample.anteCollab Sample.ctx (GetMsgs Sample.badTx))
      as [[msgs' ctx'] r] eqn:E.
    exists msgs', ctx'. split; [|reflexivity].
    vm_compute in E. injection E as _ _ <-. reflexivity.
Defined.

(* ===================================================================== *)
(** ** More on the message executor *)
(* ===================================================================== *)

Section ExecutorMore.

Context (EC : ExecCollab).

(** The gas values of a successful execution, for a gas limit that fits an
    [int64]. *)
Lemma executor_gas_facts ctx msg tracer commit cfg txConfig ctx' res fr :
  0 <= GasLimit msg <= U64.maxInt64 ->
  ApplyMessageWithConfig EC ctx msg tracer commit cfg txConfig = (ctx', Ok (res, fr)) ->
  0 <= fr_vmLeftoverGas fr <= GasLimit msg
  /\ fr_gasBeforeRefund fr = GasLimit msg - fr_vmLeftoverGas fr
  /\ fr_refundQuotient fr = quotientAt cfg ctx
  /\ 0 <= fr_refund fr <= fr_gasBeforeRefund fr / fr_refundQuotient fr
  /\ fr_gasBeforeRefund fr / fr_refundQuotient fr <= fr_gasBeforeRefund fr
  /\ fr_gasAfterRefund fr = fr_gasBeforeRefund fr - fr_refund fr
  /\ res_GasUsed res
     = Z.max (GasLimit msg * GetMinGasMultiplier EC ctx' / Dec.precisionReuse)
         (fr_gasAfterRefund fr)
  /\ fr_leftoverGas fr = U64.sub (GasLimit msg) (res_GasUsed res).
Proof.
  intros Hlimit H.
  destruct (ApplyMessageWithConfig_ok EC _ _ _ _ _ _ _ _ _ H)
    as (intrinsicGas & stateDB & preCreate & ret & vmLeftover & vmErr & gasUsed & minimum
        & _ & _ & Hexec & Hleft & _ & Hmul & Hused & -> & Hfr).
  assert (Hrange : U64.in_range (GasLimit msg))
    by (unfold U64.in_range, U64.modulus, U64.maxInt64 in *; lia).
  pose proof (execute_leftover_range _ _ _ _ _ _ _ _ _ _ Hexec) as Hv.
  pose proof (GetRefund_range stateDB) as Hraw.
  destruct (refund_arithmetic (GasLimit msg) vmLeftover (states.GetRefund stateDB)
              (quotientAt cfg ctx) Hrange Hv Hleft (proj1 Hraw) (quotientAt_pos cfg ctx))
    as (Hb & Hr & Hdiv & _ & Hsub).
  assert (Hafter : fr_gasAfterRefund fr
                   = U64.sub (GasLimit msg) vmLeftover
                     - GasToRefund (states.GetRefund stateDB)
                         (U64.sub (GasLimit msg) vmLeftover) (quotientAt cfg ctx))
    by (rewrite Hfr; exact Hsub).
  rewrite (U64Facts.to_int64_small (GasLimit msg)) in Hmul by lia.
  rewrite (U64Facts.to_int64_small (fr_gasAfterRefund fr)) in Hused
    by (rewrite Hafter; unfold U64.in_range in Hv; lia).
  apply DecFacts.Mul_NewDec in Hmul. subst minimum.
  apply Uint64_ok in Hused as [Hused _].
  rewrite truncate_max_whole in Hused by (rewrite Hafter; lia).
  rewrite Hfr in *. cbn [fr_vmLeftoverGas fr_gasBeforeRefund fr_refundQuotient fr_refund
                         fr_gasAfterRefund fr_leftoverGas res_GasUsed] in *.
  unfold U64.in_range in Hv.
  repeat split; try lia; try assumption; reflexivity.
Qed.

(** Where an error of [ApplyMessageWithConfig] can come from: never from
    the second overflow test, and either from before the commit, with the
    context as given, or from the commit itself. *)
Lemma ApplyMessageWithConfig_error ctx msg tracer commit cfg txConfig ctx' e :
  U64.in_range (GasLimit msg) ->
  ApplyMessageWithConfig EC ctx msg tracer commit cfg txConfig = (ctx', Err e) ->
  e <> Wrap ErrGasOverflow "message gas limit < leftover gas"
  /\ (ctx' = ctx
      \/ (commit = true
          /\ exists stateDB cause l,
               CommitFailure EC stateDB ctx = Some (cause, l)
               /\ e = Wrap cause "failed to commit stateDB"
               /\ ctx' = cosmos.WithLedger ctx l)).
Proof.
  intros Hrange. unfold ApplyMessageWithConfig. intros H.
  destruct (negb (EnableCreate (cfg_Params cfg)) && is_nil (To msg));
    [injection H as <- <-; split; [discriminate|left; reflexivity]|].
  destruct (negb (EnableCall (cfg_Params cfg)) && negb (is_nil (To msg)));
    [injection H as <- <-; split; [discriminate|left; reflexivity]|].
  destruct (GetEthIntrinsicGas EC ctx msg (cfg_ChainConfig cfg) (is_nil (To msg)))
    as [intrinsicGas|e0|s]; [|injection H as <- <-; split; [discriminate|left; reflexivity]
                              |discriminate].
  destruct (Z.ltb_spec (GasLimit msg) (U64.wrap intrinsicGas)) as [|Hgas];
    [injection H as <- <-; split; [discriminate|left; reflexivity]|].
  fold (preparedStateDB EC ctx msg cfg txConfig) in H.
  destruct (execute EC (NewEVM EC ctx msg cfg tracer) (preparedStateDB EC ctx msg cfg txConfig)
              msg (U64.sub (GasLimit msg) (U64.wrap intrinsicGas)))
    as [[[[stateDB preCreate] ret] vmLeftover] vmErr] eqn:Hexec.
  destruct (Z.ltb_spec (GasLimit msg) vmLeftover) as [|Hleft];
    [injection H as <- <-; split; [discriminate|left; reflexivity]|].
  destruct (if commit then states.Commit (CommitFailure EC stateDB ctx) stateDB ctx
            else (ctx, None)) as [ctx1 [e1|]] eqn:Hcommit.
  { injection H as <- <-. split; [discriminate|]. right.
    destruct commit; [|discriminate]. split; [reflexivity|].
    unfold states.Commit in Hcommit.
    destruct (CommitFailure EC stateDB ctx) as [[cause l]|] eqn:Hfail; [|discriminate].
    injection Hcommit as <- <-. exists stateDB, cause, l. auto. }
  exfalso.
  destruct (Dec.Mul _ _) as [minimumGasUsed|e2|s] eqn:Hmul;
    [|unfold Dec.Mul in Hmul; destruct (Dec.overflows _); discriminate|discriminate].
  pose proof (execute_leftover_range _ _ _ _ _ _ _ _ _ _ Hexec) as Hv.
  pose proof (GetRefund_range stateDB) as Hraw.
  fold (quotientAt cfg ctx) in H.
  destruct (refund_arithmetic (GasLimit msg) vmLeftover (states.GetRefund stateDB)
              (quotientAt cfg ctx) Hrange Hv Hleft (proj1 Hraw) (quotientAt_pos cfg ctx))
    as (Hb & Hr & Hdiv & Hadd & _).
  match type of H with (if ?c then _ else _) = _ => destruct c eqn:Hover end.
  - apply Z.ltb_lt in Hover.
    assert (Hover' : GasLimit msg
                     < U64.add vmLeftover
                         (GasToRefund (states.GetRefund stateDB)
                            (U64.sub (GasLimit msg) vmLeftover) (quotientAt cfg ctx)))
      by exact Hover.
    rewrite Hadd in Hover'. lia.
  - match type of H with match ?u with _ => _ end = _ =>
      destruct u as [gasUsed|e3|s] eqn:Hused end; try discriminate.
    unfold Dec.Uint64 in Hused. destruct (_ && _); discriminate.
Qed.

(** X1. A message that passes the governance tests but whose gas limit is
    below the intrinsic gas is rejected with [core.ErrIntrinsicGas] wrapped
    as "apply message", and an error of the intrinsic gas computation is
    wrapped as "intrinsic gas failed"; in both cases the context comes back
    as given, whatever [commit] is. *)
Theorem intrinsic_gas_rejected ctx msg tracer commit cfg txConfig :
  governanceAllows cfg msg = true ->
  (forall g,
     GetEthIntrinsicGas EC ctx msg (cfg_ChainConfig cfg) (is_nil (To msg)) = Ok g ->
     GasLimit msg < U64.wrap g ->
     ApplyMessageWithConfig EC ctx msg tracer commit cfg txConfig
     = (ctx, Err (Wrap ErrIntrinsicGas "apply message")))
  /\ (forall e,
        GetEthIntrinsicGas EC ctx msg (cfg_ChainConfig cfg) (is_nil (To msg)) = Err e ->
        ApplyMessageWithConfig EC ctx msg tracer commit cfg txConfig
        = (ctx, Err (Wrap e "intrinsic gas failed"))).
Proof.
  unfold governanceAllows. intros Hgov.
  apply andb_prop in Hgov as [Hcreate Hcall].
  apply negb_true_iff in Hcreate, Hcall.
  unfold ApplyMessageWithConfig. rewrite Hcreate, Hcall. split.
  - intros g -> Hlt.
    destruct (Z.ltb_spec (GasLimit msg) (U64.wrap g)); [reflexivity|lia].
  - intros e ->. reflexivity.
Qed.

(** X2. With [commit] false the executor leaves the context exactly as it
    was given, whatever the outcome (response, error or panic): a simulation
    never writes. *)
Theorem simulation_leaves_context ctx msg tracer cfg txConfig :
  fst (ApplyMessageWithConfig EC ctx msg tracer false cfg txConfig) = ctx.
Proof.
  unfold ApplyMessageWithConfig.
  repeat case_match; simpl; try reflexivity;
    repeat match goal with
    | H : Ok _ = Ok _ |- _ => simplify_eq
    end; reflexivity.
Qed.

(** X3. Every error of the executor other than a failed commit comes with
    the context as given, also with [commit] true: the governance tests, the
    intrinsic-gas tests and the first overflow test return before anything is
    written, and none of the error returns after the commit can be taken. The
    only error that can come with a changed ledger is the wrapped error of
    the commit itself, and only with [commit] true. *)
Theorem executor_error_leaves_context ctx msg tracer commit cfg txConfig ctx' e :
  U64.in_range (GasLimit msg) ->
  ApplyMessageWithConfig EC ctx msg tracer commit cfg txConfig = (ctx', Err e) ->
  ctx' = ctx
  \/ (commit = true /\ exists cause, e = Wrap cause "failed to commit stateDB").
Proof.
  intros Hrange H.
  destruct (ApplyMessageWithConfig_error ctx msg tracer commit cfg txConfig ctx' e Hrange H)
    as [_ [Hsame|(Hcommit & stateDB & cause & l & _ & He & _)]].
  - left. exact Hsame.
  - right. split; [exact Hcommit|]. exists cause. exact He.
Qed.

(** X4. The second overflow test (line 389) never fires: after the first
    test and the capped refund the leftover gas cannot exceed the gas limit,
    so the executor never returns the error "message gas limit < leftover
    gas". *)
Theorem second_overflow_test_never_fires ctx msg tracer commit cfg txConfig :
  U64.in_range (GasLimit msg) ->
  snd (ApplyMessageWithConfig EC ctx msg tracer commit cfg txConfig)
  <> Err (Wrap ErrGasOverflow "message gas limit < leftover gas").
Proof.
  intros Hrange Hsnd.
  destruct (ApplyMessageWithConfig EC ctx msg tracer commit cfg txConfig) as [ctx' r] eqn:H.
  simpl in Hsnd. subst r.
  exact (proj1 (ApplyMessageWithConfig_error ctx msg tracer commit cfg txConfig ctx' _ Hrange H)
           eq_refl).
Qed.

(** X5. With a minimum-gas multiplier between 0 and 1 the gas used of the
    response never exceeds the gas limit, so the leftover gas of line 395 is
    the plain difference and is not negative. *)
Theorem gas_used_within_limit ctx msg tracer commit cfg txConfig ctx' res fr :
  0 <= GasLimit msg <= U64.maxInt64 ->
  0 <= GetMinGasMultiplier EC ctx' <= Dec.NewDec 1 ->
  ApplyMessageWithConfig EC ctx msg tracer commit cfg txConfig = (ctx', Ok (res, fr)) ->
  0 <= res_GasUsed res <= GasLimit msg
  /\ fr_leftoverGas fr = GasLimit msg - res_GasUsed res.
Proof.
  intros Hlimit Hm H.
  destruct (executor_gas_facts ctx msg tracer commit cfg txConfig ctx' res fr Hlimit H)
    as (Hv & Hb & _ & Hr & Hdiv & Hafter & Hused & Hleft).
  pose proof DecFacts.precisionReuse_pos as HP.
  unfold Dec.NewDec in Hm.
  assert (Hfloor : 0 <= GasLimit msg * GetMinGasMultiplier EC ctx' / Dec.precisionReuse
                   <= GasLimit msg).
  { split; [apply Z.div_pos; nia|]. apply Z.div_le_upper_bound; nia. }
  assert (Hbound : 0 <= res_GasUsed res <= GasLimit msg) by lia.
  split; [exact Hbound|].
  rewrite Hleft. apply U64Facts.sub_small; [lia|].
  unfold U64.modulus, U64.maxInt64 in *. lia.
Qed.

End ExecutorMore.

(** X1 on the sample: a call with gas limit 20000, below the intrinsic
    21000. *)
Lemma intrinsic_gas_rejected_sample :
  ApplyMessageWithConfig Sample.vmSuccess Sample.ctx (Sample.callMsg 20000) None true
    (Sample.evmConfig None) Sample.txConfig
  = (Sample.ctx, Err (Wrap ErrIntrinsicGas "apply message")).
Proof.
  apply (proj1 (intrinsic_gas_rejected Sample.vmSuccess Sample.ctx (Sample.callMsg 20000)
                  None true (Sample.evmConfig None) Sample.txConfig eq_refl) 21000).
  - reflexivity.
  - vm_compute. reflexivity.
Defined.

(** X3 on the sample: the gas limit below the intrinsic gas, [commit] set;
    and the other case, a creation over a store that fails the commit after
    writing: the error of the commit, with the sender's nonce already 8 in
    the ledger. *)
Lemma executor_error_leaves_context_sample :
  (exists ctx' e,
     ApplyMessageWithConfig Sample.vmSuccess Sample.ctx (Sample.callMsg 20000) None true
       (Sample.evmConfig None) Sample.txConfig = (ctx', Err e)
     /\ ctx' = Sample.ctx)
  /\ (exists ctx',
        ApplyMessageWithConfig Cases.vmCommitFails Sample.ctx (Sample.createMsg 100000) None
          true (Sample.evmConfig None) Sample.txConfig
        = (ctx', Err (Wrap (ErrCollaborator "store closed") "failed to commit stateDB"))
        /\ ledgerNonce Sample.ctx 100 = 0
        /\ ledgerNonce ctx' 100 = 8).
Proof.
  split.
  - destruct (ApplyMessageWithConfig Sample.vmSuccess Sample.ctx (Sample.callMsg 20000) None
                true (Sample.evmConfig None) Sample.txConfig)
      as [ctx' [[res fr]|e|s]] eqn:E;
      [vm_compute in E; discriminate| |vm_compute in E; discriminate].
    exists ctx', e. split; [reflexivity|].
    assert (Hrange : U64.in_range (GasLimit (Sample.callMsg 20000)))
      by (unfold U64.in_range, U64.modulus; simpl; lia).
    destruct (executor_error_leaves_context Sample.vmSuccess Sample.ctx (Sample.callMsg 20000)
                None true (Sample.evmConfig None) Sample.txConfig ctx' e Hrange E)
      as [Hsame|[_ [cause He]]]; [exact Hsame|].
    vm_compute in E. injection E as _ <-. discriminate.
  - eexists. split; [vm_compute; reflexivity|]. split; vm_compute; reflexivity.
Defined.

(** X4 on the sample run. *)
Lemma second_overflow_test_never_fires_sample :
  snd (ApplyMessageWithConfig Sample.vmRevert Sample.ctx (Sample.createMsg 100000) None true
         (Sample.evmConfig (Some 0)) Sample.txConfig)
  <> Err (Wrap ErrGasOverflow "message gas limit < leftover gas").
Proof.
  apply (second_overflow_test_never_fires Sample.vmRevert Sample.ctx
           (Sample.createMsg 100000) None true (Sample.evmConfig (Some 0)) Sample.txConfig).
  unfold U64.in_range, U64.modulus. simpl. lia.
Defined.

(** X5 on the sample run: 74400 of 100000 gas used, 25600 left over. *)
Lemma gas_used_within_limit_sample :
  exists ctx' res fr,
    ApplyMessageWithConfig Sample.vmRevert Sample.ctx (Sample.createMsg 100000) None true
      (Sample.evmConfig (Some 0)) Sample.txConfig = (ctx', Ok (res, fr))
    /\ res_GasUsed res <= 100000
    /\ fr_leftoverGas fr = 100000 - res_GasUsed res.
Proof.
  destruct (ApplyMessageWithConfig Sample.vmRevert Sample.ctx (Sample.createMsg 100000) None
              true (Sample.evmConfig (Some 0)) Sample.txConfig)
    as [ctx' [[res fr]|e|s]] eqn:E;
    [|vm_compute in E; discriminate|vm_compute in E; discriminate].
  exists ctx', res, fr. split; [reflexivity|].
  assert (Hlimit : 0 <= GasLimit (Sample.createMsg 100000) <= U64.maxInt64)
    by (unfold U64.maxInt64; simpl; lia).
  assert (Hm : 0 <= GetMinGasMultiplier Sample.vmRevert ctx' <= Dec.NewDec 1)
    by (vm_compute; split; discriminate).
  destruct (gas_used_within_limit Sample.vmRevert Sample.ctx (Sample.createMsg 100000) None
              true (Sample.evmConfig (Some 0)) Sample.txConfig ctx' res fr Hlimit Hm E)
    as [Hbound Hleft].
  split; [exact (proj2 Hbound) | exact Hleft].
Defined.

(* ===================================================================== *)
(** ** More on the transaction applier *)
(* ===================================================================== *)

Section ApplierMore.

Context (AC : ApplyCollab) (k : Keeper).

Lemma receiptBloom_no_error ctx logs e : receiptBloom AC ctx logs <> Err e.
Proof.
  unfold receiptBloom, BytesToBloom. repeat case_match; discriminate.
Qed.

(** X6. An error of [ApplyTransaction] that does not come from the refund
    or from the transient gas total (configuration, message derivation,
    execution) leaves the context exactly as given, although the executor
    was run with [commit] true: it committed into the snapshot only. *)
Theorem early_failure_leaves_context ctx tx ctx' e :
  ApplyTransaction AC k ctx tx = (ctx', Err e) ->
  lateFailure e = false ->
  ctx' = ctx.
Proof.
  unfold ApplyTransaction. intros H Hlate.
  destruct (k_EVMConfig AC ctx _ _) as [evmConfig|e0|s];
    [|injection H as <- _; reflexivity|discriminate].
  destruct (TransactionToMessage AC tx _ _) as [msg|e0|s];
    [|injection H as <- _; reflexivity|discriminate].
  destruct (ApplyMessageWithConfig _ _ _ _ _ _ _) as [tmpCtx [[executed frame]|e0|s]];
    [|injection H as <- _; reflexivity|discriminate].
  fold (receiptBloom AC ctx (LogsToEthereum (res_Logs executed))) in H.
  destruct (receiptBloom AC ctx (LogsToEthereum (res_Logs executed))) as [bloom|e0|s];
    [|injection H as <- _; reflexivity|discriminate].
  unfold Failed in H. simpl in H. fold (Failed executed) in H.
  destruct (Failed executed); simpl in H.
  - destruct (RefundGas AC _ msg _ _) as [l|e0|s];
      [|injection H as _ <-; discriminate|discriminate].
    match type of H with match ?a with _ => _ end = _ =>
      destruct a as [[ctx5 total]|e0|s] end;
      [discriminate|injection H as _ <-; discriminate|discriminate].
  - destruct (RefundGas AC _ msg _ _) as [l|e0|s];
      [|injection H as _ <-; discriminate|discriminate].
    match type of H with match ?a with _ => _ end = _ =>
      destruct a as [[ctx5 total]|e0|s] end;
      [discriminate|injection H as _ <-; discriminate|discriminate].
Qed.

(** X8. With a minimum-gas multiplier between 0 and 1 and a gas limit that
    fits an [int64], the leftover gas handed to [RefundGas] is the plain
    difference [GasLimit - GasUsed]: it is not negative, and the gas charged
    and the gas refunded add up to the gas limit. *)
Theorem refund_completes_gas_limit ctx tx ctx' res ap :
  ApplyTransaction AC k ctx tx = (ctx', Ok (res, ap)) ->
  0 <= GasLimit (ap_msg ap) <= U64.maxInt64 ->
  0 <= GetMinGasMultiplier (ac_Exec AC) (ap_snapshot ap) <= Dec.NewDec 1 ->
  0 <= ap_refunded ap
  /\ res_GasUsed res + ap_refunded ap = GasLimit (ap_msg ap).
Proof.
  intros H Hlimit Hm.
  destruct (ApplyTransaction_ok AC k _ _ _ _ _ H)
    as (evmConfig & executed & bloom & l & ctx5 & _ & _ & Hexec & _ & _ & _
        & _ & _ & Hrefunded & _ & _ & _ & ->).
  cbv zeta in *. cbn [res_GasUsed].
  destruct (executor_gas_facts _ _ _ _ _ _ _ _ _ _ Hlimit Hexec)
    as (Hv & Hb & _ & Hr & Hdiv & Hafter & Hused & _).
  pose proof DecFacts.precisionReuse_pos as HP.
  unfold Dec.NewDec in Hm.
  assert (Hfloor : 0 <= GasLimit (ap_msg ap) * GetMinGasMultiplier (ac_Exec AC) (ap_snapshot ap)
                        / Dec.precisionReuse <= GasLimit (ap_msg ap)).
  { split; [apply Z.div_pos; nia|]. apply Z.div_le_upper_bound; nia. }
  rewrite Hrefunded, U64Facts.sub_small;
    [lia | lia | unfold U64.modulus, U64.maxInt64 in *; lia].
Qed.

(** X9. When the step that adds the gas to the transient total fails, the
    error is returned with a context in which the earlier steps have already
    taken effect: the transient transaction index is advanced, while the
    transaction gas meter has not been reset. *)
Theorem transient_gas_failure_after_index ctx tx ctx' e :
  ApplyTransaction AC k ctx tx = (ctx', Err (Wrap e "failed to add transient gas used")) ->
  tr_TxIndex (transient (cosmos.Store ctx'))
  = U64.add (U64.wrap (TxIndex (k_TxConfig AC ctx (tx_Hash tx) (tx_Type tx)))) 1
  /\ cosmos.TxGasMeter ctx' = cosmos.TxGasMeter ctx.
Proof.
  unfold ApplyTransaction. intros H.
  destruct (k_EVMConfig AC ctx _ _) as [evmConfig|e0|s]; try discriminate.
  destruct (TransactionToMessage AC tx _ _) as [msg|e0|s]; try discriminate.
  destruct (ApplyMessageWithConfig _ _ _ _ _ _ _) as [tmpCtx [[executed frame]|e0|s]];
    try discriminate.
  fold (receiptBloom AC ctx (LogsToEthereum (res_Logs executed))) in H.
  destruct (receiptBloom AC ctx (LogsToEthereum (res_Logs executed))) as [bloom|e0|s] eqn:Hb;
    [|exfalso; exact (receiptBloom_no_error _ _ _ Hb)|discriminate].
  unfold Failed in H. simpl in H. fold (Failed executed) in H.
  destruct (Failed executed); simpl in H;
    (destruct (RefundGas AC _ msg _ _) as [l|e0|s]; try discriminate;
     match type of H with match ?a with _ => _ end = _ =>
       destruct a as [[ctx5 total]|e0|s] end; try discriminate;
     injection H as <- _; repeat case_match; split; reflexivity).
Qed.


(** X11. [ApplyMessage] with [commit] false leaves the context as given,
    whatever the outcome; and when the configuration cannot be loaded it
    returns that error wrapped as "failed to load evm config" without running
    anything, also with [commit] true. *)
Theorem ApplyMessage_simulation ctx msg tracer commit :
  fst (ApplyMessage AC k ctx msg tracer false) = ctx
  /\ (forall e,
        k_EVMConfig AC ctx (hp_ProposerAddress (cosmos.BlockHeader ctx)) (eip155ChainID k)
        = Err e ->
        ApplyMessage AC k ctx msg tracer commit
        = (ctx, Err (Wrap e "failed to load evm config"))).
Proof.
  split.
  - unfold ApplyMessage, ApplyMessageWithConfig.
    repeat case_match; simpl; try reflexivity;
      repeat match goal with
      | H : Ok _ = Ok _ |- _ => simplify_eq
      end; reflexivity.
  - intros e He. unfold ApplyMessage. rewrite He. reflexivity.
Qed.

End ApplierMore.

(** X6 on a call whose gas limit is below the intrinsic gas: the executor's
    error is wrapped and the context is the one given. *)
Lemma early_failure_leaves_context_sample :
  exists ctx',
    ApplyTransaction Sample.applySuccess Sample.keeper Sample.ctx Cases.cheapTx
    = (ctx', Err (Wrap (Wrap ErrIntrinsicGas "apply message")
                    "failed to apply ethereum core message"))
    /\ ctx' = Sample.ctx.
Proof.
  destruct (ApplyTransaction Sample.applySuccess Sample.keeper Sample.ctx Cases.cheapTx)
    as [ctx' r] eqn:E.
  assert (Hr : r = Err (Wrap (Wrap ErrIntrinsicGas "apply message")
                          "failed to apply ethereum core message"))
    by (vm_compute in E; injection E as _ <-; reflexivity).
  subst r. exists ctx'. split; [reflexivity|].
  exact (early_failure_leaves_context Sample.applySuccess Sample.keeper Sample.ctx
           Cases.cheapTx ctx' _ E eq_refl).
Defined.

(** X8 on the successful call: 50000 charged, 50000 refunded, 100000
    bought. *)
Lemma refund_completes_gas_limit_sample :
  exists ctx' res ap,
    ApplyTransaction Sample.applySuccess Sample.keeper Sample.ctx Sample.callTx
    = (ctx', Ok (res, ap))
    /\ res_GasUsed res + ap_refunded ap = 100000.
Proof.
  destruct (ApplyTransaction Sample.applySuccess Sample.keeper Sample.ctx Sample.callTx)
    as [ctx' [[res ap]|e|s]] eqn:E;
    [|vm_compute in E; discriminate|vm_compute in E; discriminate].
  exists ctx', res, ap. split; [reflexivity|].
  assert (Hap : GasLimit (ap_msg ap) = 100000
                /\ GetMinGasMultiplier (ac_Exec Sample.applySuccess) (ap_snapshot ap)
                   = Sample.half).
  { split; [|reflexivity]. vm_compute in E. injection E as _ _ <-. reflexivity. }
  destruct Hap as [Hlimit Hm].
  destruct (refund_completes_gas_limit Sample.applySuccess Sample.keeper Sample.ctx
              Sample.callTx ctx' res ap E) as [_ Hsum].
  - rewrite Hlimit. unfold U64.maxInt64. lia.
  - rewrite Hm. vm_compute. split; discriminate.
  - rewrite Hsum. exact Hlimit.
Defined.

(** X9 on a context whose transient gas total cannot take more: the error
    comes back with the transaction index moved from 2 to 3. *)
Lemma transient_gas_failure_after_index_sample :
  exists ctx',
    ApplyTransaction Sample.applySuccess Sample.keeper Cases.ctxGasFull Sample.callTx
    = (ctx', Err (Wrap ErrGasOverflow "failed to add transient gas used"))
    /\ tr_TxIndex (transient (cosmos.Store Cases.ctxGasFull)) = 2
    /\ tr_TxIndex (transient (cosmos.Store ctx')) = 3.
Proof.
  destruct (ApplyTransaction Sample.applySuccess Sample.keeper Cases.ctxGasFull Sample.callTx)
    as [ctx' r] eqn:E.
  assert (Hr : r = Err (Wrap ErrGasOverflow "failed to add transient gas used"))
    by (vm_compute in E; injection E as _ <-; reflexivity).
  subst r. exists ctx'. split; [reflexivity|]. split; [reflexivity|].
  destruct (transient_gas_failure_after_index Sample.applySuccess Sample.keeper
              Cases.ctxGasFull Sample.callTx ctx' ErrGasOverflow E) as [Hindex _].
  rewrite Hindex. reflexivity.
Defined.


(* ===================================================================== *)
(** ** More on the block-hash resolver and the execution context *)
(* ===================================================================== *)

(** X12. In the execution context built by [NewEVM] the block-hash function
    resolves the context's own block number to the header hash of the
    context, byte for byte, when that hash has 32 bytes; and it resolves
    every later number to the zero identifier. *)
Theorem evm_resolves_own_block (EC : ExecCollab) ctx msg cfg tracer :
  let blockCtx := evm_Context (NewEVM EC ctx msg cfg tracer) in
  (length (cosmos.HeaderHash ctx) = Hash.HashLength ->
   BlockNumber blockCtx <= U64.maxInt64 ->
   GetHash blockCtx (BlockNumber blockCtx) = cosmos.HeaderHash ctx)
  /\ (forall n, BlockNumber blockCtx < n -> GetHash blockCtx n = Hash.zero).
Proof.
  intros blockCtx. subst blockCtx. simpl. split.
  - intros Hlen Hmax.
    rewrite GetHashFn_current_fixed; [apply HashFacts.BytesToHash_exact; exact Hlen|exact Hmax|].
    intros Hnil. rewrite Hnil in Hlen. discriminate.
  - intros n Hn. apply GetHashFn_future. exact Hn.
Qed.

(* ===================================================================== *)
(** ** More on the signature verification stage *)
(* ===================================================================== *)

Section SigVerificationMore.

Context (AK : AnteCollab).



(** Where the loop stops on a rejection, in terms of [senderSet]. *)
Lemma verifyMsgs_rejected msgs : forall ctx msgs' ctx' e,
  verifyMsgs AK ctx msgs = (msgs', ctx', Err e) ->
  exists before before' rejected after,
    msgs = before ++ rejected :: after
    /\ msgs' = before' ++ rejected :: after
    /\ Forall2 (senderSet AK ctx) before before'
    /\ verifies AK ctx rejected = false
    /\ match rejected with
       | OtherMsg _ => e = Wrap ErrUnknownRequest "invalid message type"
       | EthereumTxMsg m =>
           VerifySig AK (cosmos.WithAspectContext ctx (aspectContextOf m))
             (met_Transaction m) = inl e
       end.
Proof.
  induction msgs as [|msg rest IH]; intros ctx msgs' ctx' e H; simpl in H.
  - discriminate.
  - destruct msg as [m|name].
    + destruct (VerifySig AK (cosmos.WithAspectContext ctx (aspectContextOf m))
                  (met_Transaction m)) as [err|[sender sig]] eqn:Hsig.
      * injection H as <- _ <-.
        exists [], [], (EthereumTxMsg m), rest. simpl. rewrite Hsig.
        repeat split; constructor.
      * destruct (verifyMsgs AK _ rest) as [[rest' ctx1] r1] eqn:Hrest.
        injection H as <- _ ->.
        destruct (IH _ _ _ _ Hrest)
          as (before & before' & rejected & after & -> & -> & Hset & Hrej & Herr).
        exists (EthereumTxMsg m :: before), (EthereumTxMsg (SetFrom m sender) :: before'),
          rejected, after.
        split; [reflexivity|]. split; [reflexivity|].
        split; [|split].
        -- constructor; [exists m, sender, sig; auto|].
           eapply Forall2_impl; [exact Hset|].
           intros x y. apply senderSet_WithAspectContext.
        -- rewrite <- Hrej. symmetry. apply verifies_WithAspectContext.
        -- destruct rejected; exact Herr.
    + injection H as <- _ <-.
      exists [], [], (OtherMsg name), rest. simpl. repeat split; constructor.
Qed.

(** X14. A rejection is partial: the messages before the first one that
    does not verify already have the recovered sender in their [From] field
    ([met_From]), that message and all after it are left untouched. The error is the unknown-request error
    for a message of another type and the error of the sender recovery for an
    Ethereum message. *)
Theorem rejection_keeps_earlier_senders msgs : forall ctx msgs' ctx' e,
  verifyMsgs AK ctx msgs = (msgs', ctx', Err e) ->
  exists before before' rejected after,
    msgs = before ++ rejected :: after
    /\ msgs' = before' ++ rejected :: after
    /\ Forall2 (senderSet AK ctx) before before'
    /\ Forall2
         (fun earlier now =>
            exists m m' sender sig,
              earlier = EthereumTxMsg m /\ now = EthereumTxMsg m'
              /\ VerifySig AK (cosmos.WithAspectContext ctx (aspectContextOf m))
                   (met_Transaction m) = inr (sender, sig)
              /\ met_From m' = Some sender
              /\ met_Transaction m' = met_Transaction m
              /\ met_CallTransaction m' = met_CallTransaction m)
         before before'
    /\ verifies AK ctx rejected = false
    /\ match rejected with
       | OtherMsg _ => e = Wrap ErrUnknownRequest "invalid message type"
       | EthereumTxMsg m =>
           VerifySig AK (cosmos.WithAspectContext ctx (aspectContextOf m))
             (met_Transaction m) = inl e
       end.
Proof.
  intros ctx msgs' ctx' e H.
  destruct (verifyMsgs_rejected msgs ctx msgs' ctx' e H)
    as (before & before' & rejected & after & Hsplit & Hsplit' & Hset & Hrej & Herr).
  exists before, before', rejected, after.
  split; [exact Hsplit|]. split; [exact Hsplit'|]. split; [exact Hset|].
  split; [|split; [exact Hrej|exact Herr]].
  eapply Forall2_impl; [exact Hset|]. intros earlier now. apply senderSet_From.
Qed.

End SigVerificationMore.

(** X12 on the sample context, whose header hash has 32 bytes. *)
Lemma evm_resolves_own_block_sample :
  GetHash (evm_Context (NewEVM Sample.vmIdle Sample.ctx (Sample.callMsg 21000)
                          (Sample.evmConfig None) None)) 5
  = cosmos.HeaderHash Sample.ctx.
Proof.
  apply (proj1 (evm_resolves_own_block Sample.vmIdle Sample.ctx (Sample.callMsg 21000)
                  (Sample.evmConfig None) None)).
  - reflexivity.
  - unfold U64.maxInt64. simpl. lia.
Defined.


(** X14 on a well-signed message followed by a badly signed one and a
    third: the first comes out with sender 100 in [From], the other two are
    untouched. *)
Lemma rejection_keeps_earlier_senders_sample :
  exists msgs' ctx' e before before' rejected after,
    verifyMsgs Sample.anteCollab Sample.ctx [Sample.ethMsg 1; Sample.ethMsg 2; Sample.ethMsg 1]
    = (msgs', ctx', Err e)
    /\ [Sample.ethMsg 1; Sample.ethMsg 2; Sample.ethMsg 1] = before ++ rejected :: after
    /\ msgs' = before' ++ rejected :: after
    /\ Forall2 (senderSet Sample.anteCollab Sample.ctx) before before'
    /\ exists m', msgs' = [EthereumTxMsg m'; Sample.ethMsg 2; Sample.ethMsg 1]
                  /\ met_From m' = Some 100.
Proof.
  destruct (verifyMsgs Sample.anteCollab Sample.ctx
              [Sample.ethMsg 1; Sample.ethMsg 2; Sample.ethMsg 1])
    as [[msgs' ctx'] r] eqn:E.
  assert (Hr : r = Err (ErrCollaborator "invalid signature"))
    by (vm_compute in E; injection E as _ _ <-; reflexivity).
  subst r.
  destruct (rejection_keeps_earlier_senders Sample.anteCollab _ _ _ _ _ E)
    as (before & before' & rejected & after & Hsplit & Hsplit' & Hset & _).
  exists msgs', ctx', (ErrCollaborator "invalid signature"), before, before', rejected, after.
  split; [reflexivity|]. split; [exact Hsplit|]. split; [exact Hsplit'|].
  split; [exact Hset|].
  vm_compute in E. injection E as <- _. eexists. split; reflexivity.
Defined.

(* ===================================================================== *)
(** ** The RPC service: account listing *)
(* ===================================================================== *)

(** The loop succeeds exactly when every record gives its key, and then
    appends the addresses of the keys in order. *)
Lemma collectAddresses_ok infos : forall addresses result,
  collectAddresses infos addresses = (Some result, None)
  <-> exists keys,
        map GetPubKey infos = map inr keys
        /\ result = addresses ++ map addressOf keys.
Proof.
  induction infos as [|info rest IH]; intros addresses result; simpl.
  - split.
    + intros H. injection H as <-. exists []. rewrite app_nil_r. auto.
    + intros (keys & Hkeys & ->). destruct keys; [|discriminate].
      simpl. rewrite app_nil_r. reflexivity.
  - destruct (GetPubKey info) as [err|pubKey].
    + split; [discriminate|]. intros (keys & Hkeys & _).
      destruct keys; discriminate.
    + rewrite IH. split.
      * intros (keys & Hkeys & ->). exists (pubKey :: keys). simpl.
        rewrite Hkeys, <- app_assoc. auto.
      * intros (keys & Hkeys & ->). destruct keys as [|key keys]; [discriminate|].
        simpl in Hkeys. injection Hkeys as <- Hkeys.
        exists keys. simpl. rewrite <- app_assoc. auto.
Qed.

(** An error of the loop is the error of the first record without a key,
    and it comes with a nil slice. *)
Lemma collectAddresses_error infos : forall addresses result e,
  collectAddresses infos addresses = (result, Some e) ->
  result = None
  /\ exists before failing after,
       infos = before ++ failing :: after
       /\ Forall (fun info => keyOf info <> None) before
       /\ GetPubKey failing = inl e.
Proof.
  induction infos as [|info rest IH]; intros addresses result e H; simpl in H.
  - discriminate.
  - destruct (GetPubKey info) as [err|pubKey] eqn:Hkey.
    + injection H as <- <-. split; [reflexivity|].
      exists [], info, rest. auto.
    + destruct (IH _ _ _ H) as (-> & before & failing & after & -> & Hbefore & Hfail).
      split; [reflexivity|].
      exists (info :: before), failing, after.
      split; [reflexivity|]. split; [|exact Hfail].
      constructor; [|exact Hbefore]. unfold keyOf. rewrite Hkey. discriminate.
Qed.

(** X15. [Accounts] returns a list without error exactly when the keyring
    can be listed and every record gives its public key; the list then holds
    one address per record, in the order of the keyring, each the address of
    the record's key. An empty keyring gives the empty list (not nil). *)
Theorem Accounts_lists_every_key clientCtx addresses :
  Accounts clientCtx = (Some addresses, None)
  <-> exists infos keys,
        Keyring_List clientCtx = inr infos
        /\ map GetPubKey infos = map inr keys
        /\ addresses = map addressOf keys.
Proof.
  unfold Accounts. destruct (Keyring_List clientCtx) as [err|infos].
  - split; [discriminate|]. intros (infos & keys & Hlist & _). discriminate.
  - rewrite collectAddresses_ok. simpl. split.
    + intros (keys & Hkeys & ->). exists infos, keys. auto.
    + intros (infos' & keys & Hlist & Hkeys & ->). injection Hlist as <-.
      exists keys. auto.
Qed.

(** X16. An error of [Accounts] never comes with addresses: when the
    keyring cannot be listed the result is the empty list with that error,
    and when a record does not give its key the result is nil with the error
    of the first such record, the addresses collected before it dropped. *)
Theorem Accounts_error_without_addresses clientCtx result e :
  Accounts clientCtx = (result, Some e) ->
  (result = Some [] /\ Keyring_List clientCtx = inl e)
  \/ (result = None
      /\ exists before failing after,
           Keyring_List clientCtx = inr (before ++ failing :: after)
           /\ Forall (fun info => keyOf info <> None) before
           /\ GetPubKey failing = inl e).
Proof.
  unfold Accounts. destruct (Keyring_List clientCtx) as [err|infos].
  - intros H. injection H as <- <-. left. auto.
  - intros H. right.
    destruct (collectAddresses_error _ _ _ _ H)
      as (-> & before & failing & after & -> & Hbefore & Hfail).
    split; [reflexivity|]. exists before, failing, after. auto.
Qed.

(** X16 on a keyring whose second record has no key: nil and the error of
    that record, although the first address had been collected. *)
Lemma Accounts_error_without_addresses_sample :
  Accounts Keys.bad = (None, Some (ErrCollaborator "cannot unpack key"))
  /\ Accounts Keys.locked = (Some [], Some (ErrCollaborator "keyring locked")).
Proof.
  split.
  - destruct (Accounts_error_without_addresses Keys.bad None
                (ErrCollaborator "cannot unpack key") eq_refl) as [[Hres _]|_];
      [discriminate|reflexivity].
  - reflexivity.
Defined.

(** X15 on a keyring with two keys, the second with an address of 21
    bytes: two addresses in the order of the keyring, the second cut from the
    left. *)
Lemma Accounts_lists_every_key_sample :
  Accounts Keys.good
  = (Some [replicate 19 x00 ++ [Byte.x0a]; replicate 19 x00 ++ [Byte.x0b]], None).
Proof.
  apply (proj2 (Accounts_lists_every_key Keys.good _)).
  exists [Keys.alice; Keys.bob],
    [ {| pk_Address := replicate 19 x00 ++ [Byte.x0a] |};
      {| pk_Address := [Byte.xff] ++ replicate 19 x00 ++ [Byte.x0b] |} ].
  split; [reflexivity|]. split; reflexivity.
Defined.
